(** * backupControl: email-to-entity reconciliation and status derivation

    A shallow embedding of the pipeline core of the repository:

    - [Classifier]  : [AIAnalyzer.analyze_email], [_parse_json_response] and
                      [_fallback_analysis] of backend/app/services/ai_service.py;
    - [Resolver]    : [get_or_create_client], [get_or_create_backup] and
                      [create_backup_event] of backend/app/api/emails_v2.py;
    - [DailyJob]    : [SchedulerService._create_backup_event] of
                      backend/app/services/scheduler.py;
    - [StatusEngine]: [SchedulerService._update_backup_statuses], which is the
                      same text in scheduler.py and in
                      backend/app/services/scheduler.py.

    Conventions of the embedding.

    - A Python [str] is a list of Unicode code points ([str := list N]); the
      literals of the source are written as Rocq strings and decoded from
      UTF-8 by [u].
    - A [datetime] is an instant, counted in microseconds ([Z]); a nullable
      column is an [option].
    - The SQLAlchemy session is an explicit store ([DB]) threaded through the
      operations; an operation that may raise returns a [result]. *)

From Stdlib Require Import List ZArith NArith Bool Lia String Ascii DecimalString.
Import ListNotations.

Set Implicit Arguments.

(* ------------------------------------------------------------------------- *)
(** ** Python strings *)

Module PyStr.

Open Scope N_scope.

Definition str := list N.

(** UTF-8 decoding of a byte list (well-formed input; a truncated sequence
    stops the decoding). *)
Fixpoint utf8_decode (bs : list N) : str :=
  match bs with
  | [] => []
  | b :: r =>
    if b <? 128 then b :: utf8_decode r
    else if b <? 224 then
      match r with
      | c1 :: r1 => ((b - 192) * 64 + (c1 - 128)) :: utf8_decode r1
      | _ => []
      end
    else if b <? 240 then
      match r with
      | c1 :: c2 :: r2 =>
        ((b - 224) * 4096 + (c1 - 128) * 64 + (c2 - 128)) :: utf8_decode r2
      | _ => []
      end
    else
      match r with
      | c1 :: c2 :: c3 :: r3 =>
        ((b - 240) * 262144 + (c1 - 128) * 4096 + (c2 - 128) * 64 + (c3 - 128))
          :: utf8_decode r3
      | _ => []
      end
  end.

Fixpoint bytes_of_string (s : string) : list N :=
  match s with
  | EmptyString => []
  | String a r => N_of_ascii a :: bytes_of_string r
  end.

(** [u "..."] is the Python literal ["..."]. *)
Definition u (s : string) : str := utf8_decode (bytes_of_string s).

Fixpoint str_eqb (a b : str) : bool :=
  match a, b with
  | [], [] => true
  | x :: a', y :: b' => (x =? y) && str_eqb a' b'
  | _, _ => false
  end.

(** [x in l] for a list of strings. *)
Definition str_mem (x : str) (l : list str) : bool := existsb (str_eqb x) l.

(** [s.startswith(p)]. *)
Fixpoint startswith (p s : str) : bool :=
  match p, s with
  | [], _ => true
  | a :: p', b :: s' => (a =? b) && startswith p' s'
  | _ :: _, [] => false
  end.

(** [p in s] for strings: [p] occurs in [s] as a contiguous run. *)
Fixpoint str_in (p s : str) : bool :=
  startswith p s ||
  match s with
  | [] => false
  | _ :: s' => str_in p s'
  end.

(** [str.lower()] and [str.upper()], code point by code point, on Basic Latin
    and the Latin-1 Supplement (the blocks the literals of the source live
    in); other code points are left as they are. *)
Definition lower_cp (c : N) : N :=
  if (65 <=? c) && (c <=? 90) then c + 32
  else if (192 <=? c) && (c <=? 222) && negb (c =? 215) then c + 32
  else c.

Definition lower (s : str) : str := map lower_cp s.

Definition upper_cp (c : N) : list N :=
  if (97 <=? c) && (c <=? 122) then [c - 32]
  else if c =? 181 then [924]
  else if c =? 223 then [83; 83]
  else if (224 <=? c) && (c <=? 254) && negb (c =? 247) then [c - 32]
  else if c =? 255 then [376]
  else [c].

Definition upper (s : str) : str := flat_map upper_cp s.

(** [sep.join(l)]. *)
Fixpoint join (sep : str) (l : list str) : str :=
  match l with
  | [] => []
  | [x] => x
  | x :: r => x ++ sep ++ join sep r
  end.

(** [str(n)] for an integer. *)
Definition str_of_Z (z : Z) : str :=
  bytes_of_string (NilZero.string_of_int (Z.to_int z)).

(** Truthiness of an optional string: [None] and [""] are falsy. *)
Definition str_or (o : option str) (d : str) : str :=
  match o with
  | Some ((_ :: _) as s) => s
  | _ => d
  end.

Definition truthy_str (o : option str) : bool :=
  match o with
  | Some (_ :: _) => true
  | _ => false
  end.

Definition truthy_bool (o : option bool) : bool :=
  match o with
  | Some true => true
  | _ => false
  end.

End PyStr.

Import PyStr.

(* ------------------------------------------------------------------------- *)
(** ** Data model (backend/app/models) *)

Module Model.

Open Scope Z_scope.

(** [BackupStatus] of models/backup.py. *)
Inductive BackupStatus := OK | WARNING | ALERT | CRITICAL | FAILED | UNKNOWN.

Definition status_value (s : BackupStatus) : str :=
  match s with
  | OK => u "ok"
  | WARNING => u "warning"
  | ALERT => u "alert"
  | CRITICAL => u "critical"
  | FAILED => u "failed"
  | UNKNOWN => u "unknown"
  end.

Definition status_eqb (a b : BackupStatus) : bool :=
  match a, b with
  | OK, OK | WARNING, WARNING | ALERT, ALERT
  | CRITICAL, CRITICAL | FAILED, FAILED | UNKNOWN, UNKNOWN => true
  | _, _ => false
  end.

(** The classification payload ([Dict[str, Any]]) as far as the resolver and
    the recorders read it, typed by the schema of the oracle's prompt.  A
    field is [None] when the key is missing or holds a JSON null; [a_status]
    keeps the two apart ([None]: no such key), because one reader passes a
    default to [dict.get]. *)
Record Analysis := mkAnalysis {
  a_is_backup_notification : option bool;
  a_backup_type : option str;
  a_status : option (option str);
  a_source_nas : option str;
  a_destination_nas : option str;
  a_task_name : option str;
  a_devices : option (list str);
  a_error_message : option str
}.

Record Client := mkClient {
  client_id : Z;
  client_name : str;
  short_name : str;
  client_description : option str;
  nas_identifiers : option (list str);
  client_is_active : option bool
}.

Record Backup := mkBackup {
  backup_id : Z;
  backup_client_id : Z;
  name : str;
  backup_type : option str;
  source_nas : option str;
  source_device : option str;
  destination_nas : option str;
  current_status : BackupStatus;
  last_success_at : option Z;
  last_failure_at : option Z;
  last_event_at : option Z;
  total_success_count : option Z;
  total_failure_count : option Z;
  is_active : option bool;
  is_maintenance : option bool;
  maintenance_until : option Z
}.

Record BackupEvent := mkBackupEvent {
  event_id : Z;
  event_backup_id : Z;
  event_email_id : option Z;
  event_type : option str;
  event_date : option Z;
  event_message : option str;
  event_error_message : option str;
  parsed_data : Analysis
}.

Record Email := mkEmail {
  email_id : option Z;
  email_subject : option str;
  received_at : option Z
}.

Record Alert := mkAlert {
  alert_type : str;
  severity : str;
  alert_client_id : Z;
  alert_backup_id : Z;
  title : str;
  alert_message : str
}.

(** The persistent store seen through one session.  Primary keys of clients,
    backups and events come from the sequences [next_*]. *)
Record DB := mkDB {
  clients : list Client;
  backups : list Backup;
  events : list BackupEvent;
  alerts : list Alert;
  next_client_id : Z;
  next_backup_id : Z;
  next_event_id : Z
}.

Definition empty_db : DB := mkDB [] [] [] [] 1 1 1.

(** Attribute assignments on a mapped [Backup]. *)
Definition set_current_status (b : Backup) (s : BackupStatus) : Backup :=
  mkBackup (backup_id b) (backup_client_id b) (name b) (backup_type b)
    (source_nas b) (source_device b) (destination_nas b) s
    (last_success_at b) (last_failure_at b) (last_event_at b)
    (total_success_count b) (total_failure_count b)
    (is_active b) (is_maintenance b) (maintenance_until b).

Definition set_last_success_at (b : Backup) (t : option Z) : Backup :=
  mkBackup (backup_id b) (backup_client_id b) (name b) (backup_type b)
    (source_nas b) (source_device b) (destination_nas b) (current_status b)
    t (last_failure_at b) (last_event_at b)
    (total_success_count b) (total_failure_count b)
    (is_active b) (is_maintenance b) (maintenance_until b).

Definition set_last_failure_at (b : Backup) (t : option Z) : Backup :=
  mkBackup (backup_id b) (backup_client_id b) (name b) (backup_type b)
    (source_nas b) (source_device b) (destination_nas b) (current_status b)
    (last_success_at b) t (last_event_at b)
    (total_success_count b) (total_failure_count b)
    (is_active b) (is_maintenance b) (maintenance_until b).

Definition set_last_event_at (b : Backup) (t : option Z) : Backup :=
  mkBackup (backup_id b) (backup_client_id b) (name b) (backup_type b)
    (source_nas b) (source_device b) (destination_nas b) (current_status b)
    (last_success_at b) (last_failure_at b) t
    (total_success_count b) (total_failure_count b)
    (is_active b) (is_maintenance b) (maintenance_until b).

Definition set_total_success_count (b : Backup) (n : option Z) : Backup :=
  mkBackup (backup_id b) (backup_client_id b) (name b) (backup_type b)
    (source_nas b) (source_device b) (destination_nas b) (current_status b)
    (last_success_at b) (last_failure_at b) (last_event_at b)
    n (total_failure_count b)
    (is_active b) (is_maintenance b) (maintenance_until b).

Definition set_total_failure_count (b : Backup) (n : option Z) : Backup :=
  mkBackup (backup_id b) (backup_client_id b) (name b) (backup_type b)
    (source_nas b) (source_device b) (destination_nas b) (current_status b)
    (last_success_at b) (last_failure_at b) (last_event_at b)
    (total_success_count b) n
    (is_active b) (is_maintenance b) (maintenance_until b).

Definition set_nas_identifiers (c : Client) (l : option (list str)) : Client :=
  mkClient (client_id c) (client_name c) (short_name c)
    (client_description c) l (client_is_active c).

(** [x or 0] on a nullable counter. *)
Definition or0 (o : option Z) : Z :=
  match o with
  | Some n => n
  | None => 0
  end.

(** Writing a mutated mapped object back: the row with the same key is
    replaced in place. *)
Definition put_backup (b : Backup) (l : list Backup) : list Backup :=
  map (fun x => if backup_id x =? backup_id b then b else x) l.

Definition put_client (c : Client) (l : list Client) : list Client :=
  map (fun x => if client_id x =? client_id c then c else x) l.

(** Exceptions the modelled code can meet. *)
Inductive exn :=
| MultipleResultsFound
| JSONDecodeError (msg : str)
| ValueError (msg : str)
| TypeError
| OtherError (msg : str).

Inductive result (A : Type) :=
| Ok (a : A)
| Raise (e : exn).
Arguments Ok {A} a.
Arguments Raise {A} e.

(** [Result.scalar_one_or_none()]: no row gives [None], one row gives it, more
    rows raise [MultipleResultsFound]. *)
Definition scalar_one_or_none {A : Type} (rows : list A) : result (option A) :=
  match rows with
  | [] => Ok None
  | [x] => Ok (Some x)
  | _ :: _ :: _ => Raise MultipleResultsFound
  end.

Definition bind {A B : Type} (r : result A) (k : A -> result B) : result B :=
  match r with
  | Ok a => k a
  | Raise e => Raise e
  end.

(** [dict.get("status")]. *)
Definition get_status (a : Analysis) : option str :=
  match a_status a with
  | Some v => v
  | None => None
  end.

End Model.

Import Model.

(* ------------------------------------------------------------------------- *)
(** ** Status engine: [SchedulerService._update_backup_statuses] *)

Module StatusEngine.

Open Scope Z_scope.

Definition us_per_hour : Z := 3600 * 1000000.

(** [hours_since_success <= h], where
    [hours_since_success = (now - last_success).total_seconds() / 3600].
    The source compares a float quotient; [elapsed] is the difference in
    microseconds and the comparison is the exact one (the thresholds are
    integers and rounding is monotone, so the two agree; so do the whole
    hours of [int_hours] below, for elapsed times under 2^53 microseconds,
    some 285 years). *)
Definition hours_le (elapsed h : Z) : bool := elapsed <=? h * us_per_hour.

(** [int(hours_since_success)]: truncation towards zero. *)
Definition int_hours (elapsed : Z) : Z := Z.quot elapsed us_per_hour.

Definition clock_status (elapsed : Z) : BackupStatus :=
  if hours_le elapsed 24 then OK
  else if hours_le elapsed 48 then WARNING
  else if hours_le elapsed 72 then ALERT
  else CRITICAL.

Definition missing_alert (backup : Backup) (elapsed : Z) : Alert :=
  mkAlert (u "backup_missing")
    (status_value (current_status backup))
    (backup_client_id backup)
    (backup_id backup)
    (u "Sauvegarde manquante: " ++ name backup)
    (u "Aucune sauvegarde réussie depuis " ++ str_of_Z (int_hours elapsed) ++ u "h").

(** The body of the [for backup in backups] loop: the backup as the loop
    leaves it, and the alerts it adds to the session. *)
Definition update_backup (now : Z) (backup : Backup) : Backup * list Alert :=
  if truthy_bool (is_maintenance backup) then (backup, [])
  else
    match last_success_at backup with
    | None => (set_current_status backup UNKNOWN, [])
    | Some last_success =>
      let hours_since_success := now - last_success in
      let old_status := current_status backup in
      let backup' := set_current_status backup (clock_status hours_since_success) in
      if negb (status_eqb old_status (current_status backup'))
         && (status_eqb (current_status backup') ALERT
             || status_eqb (current_status backup') CRITICAL)
      then (backup', [missing_alert backup' hours_since_success])
      else (backup', [])
    end.

(** [select(Backup).where(Backup.is_active == True)]: a NULL flag does not
    select the row. *)
Definition selected (b : Backup) : bool :=
  match is_active b with
  | Some true => true
  | _ => false
  end.

Fixpoint update_rows (now : Z) (rows : list Backup) : list Backup * list Alert :=
  match rows with
  | [] => ([], [])
  | b :: rest =>
    let (rest', al) := update_rows now rest in
    if selected b then
      let (b', a) := update_backup now b in (b' :: rest', a ++ al)
    else (b :: rest', al)
  end.

Definition _update_backup_statuses (now : Z) (db : DB) : DB :=
  let (bs, al) := update_rows now (backups db) in
  mkDB (clients db) bs (events db) (alerts db ++ al)
    (next_client_id db) (next_backup_id db) (next_event_id db).

End StatusEngine.

(* ------------------------------------------------------------------------- *)
(** ** What the store evaluates: JSON text of a column and [ILIKE] *)

Module Sql.

Open Scope N_scope.

Definition hex_digit (n : N) : N := if n <? 10 then 48 + n else 87 + n.

Definition u_escape (c : N) : str :=
  [92; 117; hex_digit (c / 4096 mod 16); hex_digit (c / 256 mod 16);
   hex_digit (c / 16 mod 16); hex_digit (c mod 16)].

(** One code point of a string under [json.dumps] (ASCII output). *)
Definition json_escape_cp (c : N) : str :=
  if c =? 34 then [92; 34]
  else if c =? 92 then [92; 92]
  else if c =? 10 then [92; 110]
  else if c =? 13 then [92; 114]
  else if c =? 9 then [92; 116]
  else if c =? 8 then [92; 98]
  else if c =? 12 then [92; 102]
  else if (32 <=? c) && (c <=? 126) then [c]
  else if c <? 65536 then u_escape c
  else u_escape (55296 + (c - 65536) / 1024)
       ++ u_escape (56320 + (c - 65536) mod 1024).

Definition json_dumps_str (s : str) : str :=
  [34] ++ flat_map json_escape_cp s ++ [34].

(** The text of a JSON column holding a list of strings (or null):
    [cast(column, String)]. *)
Definition json_text (v : option (list str)) : str :=
  match v with
  | None => u "null"
  | Some l => [91] ++ join (u ", ") (map json_dumps_str l) ++ [93]
  end.

(** [LIKE]: [%] is any run, [_] any one character, a backslash takes the next
    character of the pattern literally (a backslash that ends the pattern
    stands for itself). *)
Fixpoint like (pat : str) : str -> bool :=
  match pat with
  | [] => fun s => match s with [] => true | _ :: _ => false end
  | c :: pat' =>
    if c =? 37 then
      fix any (s : str) : bool :=
        like pat' s || match s with [] => false | _ :: s' => any s' end
    else if c =? 95 then
      fun s => match s with [] => false | _ :: s' => like pat' s' end
    else if c =? 92 then
      match pat' with
      | c' :: pat'' =>
        fun s => match s with [] => false | x :: s' => (x =? c') && like pat'' s' end
      | [] =>
        fun s => match s with [] => false | x :: s' => (x =? c) && like pat' s' end
      end
    else
      fun s => match s with [] => false | x :: s' => (x =? c) && like pat' s' end
  end.

(** [ILIKE]: [LIKE] without regard to case. *)
Definition ilike (s pat : str) : bool := like (lower pat) (lower s).

(** [column == value] on a nullable string column: NULL matches nothing. *)
Definition col_eq (col : option str) (v : str) : bool :=
  match col with
  | Some c => str_eqb c v
  | None => false
  end.

(** [column == value] on a nullable integer column, where a Python [None]
    value is rendered [IS NULL]. *)
Definition col_eq_opt (col v : option Z) : bool :=
  match col, v with
  | Some a, Some b => (a =? b)%Z
  | None, None => true
  | _, _ => false
  end.

End Sql.

Import Sql.

(* ------------------------------------------------------------------------- *)
(** ** Entity resolver and event recorder (backend/app/api/emails_v2.py) *)

Module Resolver.

Open Scope Z_scope.

Notation "' p <- r ;; k" := (bind r (fun p => k))
  (at level 61, p pattern, r at next level, right associativity).

Definition is_AZ (c : N) : bool := ((65 <=? c) && (c <=? 90))%N.

(** The longest run of at most [n] code points of [[A-Z]] at the head. *)
Fixpoint take_AZ (n : nat) (s : str) : str :=
  match n, s with
  | S n', c :: r => if is_AZ c then c :: take_AZ n' r else []
  | _, _ => []
  end.

(** [re.match(r'^(N[A-Z]{2,4})\d*', s)], group 1.  The repetition is greedy
    and what follows it ([\d*]) matches every input, so there is no
    backtracking: the group is [N] and the longest run of up to four
    capitals, when that run has at least two. *)
Definition prefix_match (s : str) : option str :=
  match s with
  | c :: r =>
    let letters := take_AZ 4 r in
    if (c =? 78)%N && (2 <=? List.length letters)%nat
    then Some (c :: letters) else None
  | [] => None
  end.

Definition client_prefix (nas_identifier : str) : str :=
  match prefix_match (upper nas_identifier) with
  | Some g => g
  | None => upper nas_identifier
  end.

Definition insert_client (db : DB) (mk : Z -> Client) : DB * Client :=
  let c := mk (next_client_id db) in
  (mkDB (clients db ++ [c]) (backups db) (events db) (alerts db)
     (next_client_id db + 1) (next_backup_id db) (next_event_id db), c).

Definition insert_backup (db : DB) (mk : Z -> Backup) : DB * Backup :=
  let b := mk (next_backup_id db) in
  (mkDB (clients db) (backups db ++ [b]) (events db) (alerts db)
     (next_client_id db) (next_backup_id db + 1) (next_event_id db), b).

Definition insert_event (db : DB) (mk : Z -> BackupEvent) : DB * BackupEvent :=
  let e := mk (next_event_id db) in
  (mkDB (clients db) (backups db) (events db ++ [e]) (alerts db)
     (next_client_id db) (next_backup_id db) (next_event_id db + 1), e).

Definition update_client (db : DB) (c : Client) : DB :=
  mkDB (put_client c (clients db)) (backups db) (events db) (alerts db)
    (next_client_id db) (next_backup_id db) (next_event_id db).

Definition update_backup_row (db : DB) (b : Backup) : DB :=
  mkDB (clients db) (put_backup b (backups db)) (events db) (alerts db)
    (next_client_id db) (next_backup_id db) (next_event_id db).

(** [get_or_create_client(db, nas_identifier)]: (store, client, created). *)
Definition get_or_create_client (db : DB) (nas_identifier : str)
  : result (DB * Client * bool) :=
  let client_prefix := client_prefix nas_identifier in
  ' client <- scalar_one_or_none
      (filter (fun c => str_eqb (short_name c) client_prefix) (clients db)) ;;
  ' client <-
      match client with
      | Some c => Ok (Some c)
      | None =>
        scalar_one_or_none
          (filter (fun c =>
             ilike (json_text (nas_identifiers c))
               (u "%" ++ [34%N] ++ upper nas_identifier ++ [34%N] ++ u "%"))
             (clients db))
      end ;;
  match client with
  | Some client =>
    let ids := match nas_identifiers client with
               | None => []
               | Some l => l
               end in
    let client := set_nas_identifiers client (Some ids) in
    let client :=
      if negb (str_mem (upper nas_identifier) ids)
      then set_nas_identifiers client (Some (ids ++ [upper nas_identifier]))
      else client in
    Ok (update_client db client, client, false)
  | None =>
    let (db', client) :=
      insert_client db (fun id =>
        mkClient id (u "Client " ++ client_prefix) client_prefix
          (Some (u "Client cree automatiquement depuis l'analyse des emails"))
          (Some [upper nas_identifier]) (Some true)) in
    Ok (db', client, true)
  end.

Definition backup_name_of (source_nas backup_type task_name : str)
    (devices : list str) : str :=
  match task_name with
  | _ :: _ => source_nas ++ u " - " ++ task_name
  | [] =>
    if str_eqb backup_type (u "active_backup")
       && match devices with [] => false | _ :: _ => true end
    then source_nas ++ u " - Active Backup - " ++ join (u ", ") (firstn 3 devices)
    else source_nas ++ u " - " ++ backup_type
  end.

(** The rows of the lookup of [get_or_create_backup]. *)
Definition candidate_backups (db : DB) (client : Client)
    (source_nas backup_type task_name backup_name : str) : list Backup :=
  filter (fun b =>
    (backup_client_id b =? client_id client)
    && col_eq (Model.source_nas b) source_nas
    && col_eq (Model.backup_type b) backup_type
    && match task_name with
       | [] => true
       | _ :: _ =>
         str_eqb (name b) backup_name
         || ilike (name b) (u "%" ++ task_name ++ u "%")
       end) (backups db).

(** [get_or_create_backup(db, client, analysis, email_data)]:
    (store, backup, created). *)
Definition get_or_create_backup (db : DB) (client : Client) (analysis : Analysis)
  : result (DB * Backup * bool) :=
  let source_nas := upper (str_or (a_source_nas analysis) (u "UNKNOWN")) in
  let backup_type := str_or (a_backup_type analysis) (u "other") in
  let task_name := str_or (a_task_name analysis) [] in
  let destination_nas := str_or (a_destination_nas analysis) [] in
  let devices := match a_devices analysis with Some l => l | None => [] end in
  let backup_name := backup_name_of source_nas backup_type task_name devices in
  ' backup <- scalar_one_or_none
      (candidate_backups db client source_nas backup_type task_name backup_name) ;;
  match backup with
  | Some backup => Ok (db, backup, false)
  | None =>
    let (db', backup) :=
      insert_backup db (fun id =>
        mkBackup id (client_id client) backup_name (Some backup_type)
          (Some source_nas)
          (match devices with [] => None | _ :: _ => Some (join (u ", ") devices) end)
          (match destination_nas with [] => None | _ :: _ => Some (upper destination_nas) end)
          UNKNOWN None None None (Some 0) (Some 0) (Some true) (Some false) None) in
    Ok (db', backup, true)
  end.

(** Resolution of one signal, as the loop body of [fetch_and_analyze_emails]
    does it: nothing for a payload that is no backup notification or names no
    source, else the client, then the backup. *)
Definition resolve (db : DB) (analysis : Analysis)
  : result (option (DB * Client * Backup * bool * bool)) :=
  match a_source_nas analysis with
  | Some ((_ :: _) as source_nas) =>
    if truthy_bool (a_is_backup_notification analysis) then
      ' (db1, client, client_new) <- get_or_create_client db source_nas ;;
      ' (db2, backup, backup_new) <- get_or_create_backup db1 client analysis ;;
      Ok (Some (db2, client, backup, client_new, backup_new))
    else Ok None
  | _ => Ok None
  end.

(** The rows of the lookup of [create_backup_event]. *)
Definition existing_events (db : DB) (backup : Backup) (email : Email)
  : list BackupEvent :=
  filter (fun e =>
    (event_backup_id e =? backup_id backup)
    && col_eq_opt (event_email_id e) (email_id email)) (events db).

Definition event_type_of (analysis : Analysis) : str :=
  let status := str_or (get_status analysis) (u "unknown") in
  if str_mem status [u "success"; u "failure"; u "warning"]
  then status else u "unknown".

(** [create_backup_event(db, backup, email, analysis)], run at [now]:
    (store, the backup object as the call leaves it, event, created). *)
Definition create_backup_event (now : Z) (db : DB) (backup : Backup)
    (email : Email) (analysis : Analysis)
  : result (DB * Backup * BackupEvent * bool) :=
  let event_type := event_type_of analysis in
  ' existing <- scalar_one_or_none (existing_events db backup email) ;;
  match existing with
  | Some existing => Ok (db, backup, existing, false)
  | None =>
    let (db, event) :=
      insert_event db (fun id =>
        mkBackupEvent id (backup_id backup) (email_id email) (Some event_type)
          (Some (match received_at email with Some t => t | None => now end))
          (email_subject email) None analysis) in
    let backup :=
      if str_eqb event_type (u "success") then
        let backup := set_last_success_at backup (received_at email) in
        let backup := set_total_success_count backup
                        (Some (or0 (total_success_count backup) + 1)) in
        set_current_status backup OK
      else if str_eqb event_type (u "failure") then
        let backup := set_last_failure_at backup (received_at email) in
        let backup := set_total_failure_count backup
                        (Some (or0 (total_failure_count backup) + 1)) in
        set_current_status backup FAILED
      else backup in
    let backup := set_last_event_at backup (received_at email) in
    Ok (update_backup_row db backup, backup, event, true)
  end.

End Resolver.

(* ------------------------------------------------------------------------- *)
(** ** The daily job's recorder
       ([SchedulerService._create_backup_event],
        backend/app/services/scheduler.py) *)

Module DailyJob.

Import Resolver.
Open Scope Z_scope.

Inductive log_level := LogInfo | LogWarning | LogError.

Record log_record := mkLog {
  log_lvl : log_level;
  log_text : str
}.

(** An optional string inside an f-string. *)
Definition fmt (o : option str) : str :=
  match o with
  | Some s => s
  | None => u "None"
  end.

(** The two lookups: by source and name, then by source alone, where only a
    single row is taken. *)
Definition find_backup (db : DB) (analysis : Analysis) : result (option Backup) :=
  let source_nas := a_source_nas analysis in
  let task_name := a_task_name analysis in
  ' backup <-
      (if truthy_str source_nas && truthy_str task_name then
         scalar_one_or_none
           (filter (fun b =>
              col_eq (Model.source_nas b) (str_or source_nas [])
              && str_eqb (name b) (str_or task_name [])) (backups db))
       else Ok None) ;;
  match backup with
  | Some b => Ok (Some b)
  | None =>
    if truthy_str source_nas then
      match filter (fun b => col_eq (Model.source_nas b) (str_or source_nas []))
              (backups db) with
      | [b] => Ok (Some b)
      | _ => Ok None
      end
    else Ok None
  end.

(** [x += 1] on a nullable counter: [None + 1] is a [TypeError]. *)
Definition incr (o : option Z) : result (option Z) :=
  match o with
  | Some n => Ok (Some (n + 1))
  | None => Raise TypeError
  end.

(** [_create_backup_event(db, email_record, analysis)]: the store and what was
    logged.  The detail columns of the event (times, sizes) are copied from
    the payload and are left out here. *)
Definition _create_backup_event (db : DB) (email_record : Email)
    (analysis : Analysis) : result (DB * list log_record) :=
  ' backup <- find_backup db analysis ;;
  match backup with
  | None =>
    Ok (db, [mkLog LogWarning
               (u "Sauvegarde non trouvée pour NAS=" ++ fmt (a_source_nas analysis)
                ++ u ", tâche=" ++ fmt (a_task_name analysis))])
  | Some backup =>
    let event_type :=
      match a_status analysis with
      | Some v => v
      | None => Some (u "unknown")
      end in
    let (db, event) :=
      insert_event db (fun id =>
        mkBackupEvent id (backup_id backup) (email_id email_record) event_type
          (received_at email_record) None (a_error_message analysis) analysis) in
    ' backup <-
        (if col_eq event_type (u "success") then
           let backup := set_last_success_at backup (received_at email_record) in
           ' n <- incr (total_success_count backup) ;;
           Ok (set_current_status (set_total_success_count backup n) OK)
         else if col_eq event_type (u "failure") then
           let backup := set_last_failure_at backup (received_at email_record) in
           ' n <- incr (total_failure_count backup) ;;
           Ok (set_current_status (set_total_failure_count backup n) FAILED)
         else Ok backup) ;;
    let backup := set_last_event_at backup (received_at email_record) in
    Ok (update_backup_row db backup,
        [mkLog LogInfo
           (u "Événement créé pour " ++ name backup ++ u ": " ++ fmt event_type)])
  end.

End DailyJob.

(* ------------------------------------------------------------------------- *)
(** ** Email classifier (backend/app/services/ai_service.py) *)

Module Classifier.

Import Resolver.
Open Scope N_scope.

(** Python values of a classification payload. *)
#[local] Unset Elimination Schemes.
Inductive pyval :=
| PNone
| PBool (b : bool)
| PInt (z : Z)
| PStr (s : str)
| PList (l : list pyval)
| PDict (d : list (str * pyval)).
#[local] Set Elimination Schemes.

(** A [dict] keeps its keys in insertion order. *)
Definition dict := list (str * pyval).

Fixpoint dict_get (d : dict) (k : str) : option pyval :=
  match d with
  | [] => None
  | (k', v) :: r => if str_eqb k' k then Some v else dict_get r k
  end.

(** [d[k] = v]. *)
Fixpoint dict_set (d : dict) (k : str) (v : pyval) : dict :=
  match d with
  | [] => [(k, v)]
  | (k', v') :: r =>
    if str_eqb k' k then (k', v) :: r else (k', v') :: dict_set r k v
  end.

(** [EmailMessage] of services/email_service.py. *)
Record EmailMessage := mkEmailMessage {
  message_id : str;
  subject : str;
  sender : str;
  body_text : str;
  msg_received_at : Z
}.

(** [any(kw in subject or kw in body for kw in kws)]. *)
Definition any_kw (kws : list str) (subject body : str) : bool :=
  existsb (fun kw => str_in kw subject || str_in kw body) kws.

Definition notification_keywords : list str :=
  [u "backup"; u "sauvegarde"; u "hyper backup"; u "active backup"].

Definition success_keywords : list str :=
  [u "réussi"; u "succès"; u "success"; u "terminée"; u "effectuée"].

Definition failure_keywords : list str :=
  [u "échoué"; u "échec"; u "failed"; u "erreur"; u "error"].

(** Character classes of [re] as far as Latin-1 goes: [\w], [\d], and
    [[A-Z]] under [re.IGNORECASE]. *)
Definition is_digit (c : N) : bool := (48 <=? c) && (c <=? 57).

Definition is_letter_ci (c : N) : bool :=
  ((65 <=? c) && (c <=? 90)) || ((97 <=? c) && (c <=? 122)).

Definition is_word (c : N) : bool :=
  is_digit c || is_letter_ci c || (c =? 95)
  || (c =? 170) || (c =? 178) || (c =? 179) || (c =? 181) || (c =? 185)
  || (c =? 186) || (c =? 188) || (c =? 189) || (c =? 190)
  || ((192 <=? c) && (c <=? 255) && negb (c =? 215) && negb (c =? 247)).

(** [\b] between [prev] and [next] ([None]: an end of the text). *)
Definition boundary (prev next : option N) : bool :=
  let w o := match o with Some c => is_word c | None => false end in
  negb (Bool.eqb (w prev) (w next)).

(** After the initial [N]: [k] letters, [d] digits, then [\b]. *)
Definition nas_tail (k d : nat) (r : str) : option str :=
  let letters := firstn k r in
  let digits := firstn d (skipn k r) in
  let rest := skipn d (skipn k r) in
  if (List.length letters =? k)%nat && forallb is_letter_ci letters
     && (List.length digits =? d)%nat && forallb is_digit digits
     && boundary (hd_error (rev digits)) (hd_error rest)
  then Some (letters ++ digits) else None.

Fixpoint first_some {A : Type} (l : list (option A)) : option A :=
  match l with
  | [] => None
  | Some a :: _ => Some a
  | None :: r => first_some r
  end.

(** [r'\b(N[A-Z]{2,4}\d{1,2})\b'] with [re.IGNORECASE], tried at the head of
    [s] with [prev] before it.  Both repetitions are greedy: the longer
    choices are tried first. *)
Definition nas_match_here (prev : option N) (s : str) : option str :=
  match s with
  | c :: r =>
    if boundary prev (Some c) && ((c =? 78) || (c =? 110)) then
      match first_some
              [nas_tail 4 2 r; nas_tail 4 1 r; nas_tail 3 2 r;
               nas_tail 3 1 r; nas_tail 2 2 r; nas_tail 2 1 r] with
      | Some t => Some (c :: t)
      | None => None
      end
    else None
  | [] => None
  end.

(** [re.search]: the leftmost position where the pattern matches. *)
Fixpoint nas_search (prev : option N) (s : str) : option str :=
  match nas_match_here prev s with
  | Some m => Some m
  | None =>
    match s with
    | [] => None
    | c :: r => nas_search (Some c) r
    end
  end.

(** [_fallback_analysis(email)], paragraph by paragraph: the initial
    [result], then the detection of the notification type, of the backup
    type and of the status, then the extraction of the source. *)
Definition initial_result : dict :=
  [(u "is_backup_notification", PBool false);
   (u "notification_type", PStr (u "other"));
   (u "backup_type", PNone);
   (u "status", PNone);
   (u "source_nas", PNone);
   (u "task_name", PNone);
   (u "destination", PNone);
   (u "confidence", PInt 30)].

Definition detect_notification_type (subject body : str) (result : dict) : dict :=
  if any_kw notification_keywords subject body then
    dict_set (dict_set result (u "is_backup_notification") (PBool true))
      (u "notification_type") (PStr (u "backup"))
  else if str_in (u "sécurité") subject || str_in (u "security") subject then
    dict_set result (u "notification_type") (PStr (u "security"))
  else if str_in (u "mise à jour") subject || str_in (u "update") subject then
    dict_set result (u "notification_type") (PStr (u "update"))
  else if str_in (u "onduleur") subject || str_in (u "ups") subject then
    dict_set result (u "notification_type") (PStr (u "ups"))
  else result.

Definition detect_backup_type (subject body : str) (result : dict) : dict :=
  if str_in (u "hyper backup") body || str_in (u "network backup") body then
    dict_set result (u "backup_type") (PStr (u "hyper_backup"))
  else if str_in (u "active backup for business") body then
    dict_set result (u "backup_type") (PStr (u "active_backup"))
  else if str_in (u "rsync") (lower subject) || str_in (u "rsync") body then
    dict_set result (u "backup_type") (PStr (u "rsync"))
  else result.

Definition detect_status (subject body : str) (result : dict) : dict :=
  if any_kw success_keywords subject body then
    dict_set result (u "status") (PStr (u "success"))
  else if any_kw failure_keywords subject body then
    dict_set result (u "status") (PStr (u "failure"))
  else result.

Definition extract_source_nas (email : EmailMessage) (result : dict) : dict :=
  match nas_search None (subject email ++ u " " ++ body_text email) with
  | Some m => dict_set result (u "source_nas") (PStr (upper m))
  | None => result
  end.

Definition _fallback_analysis (email : EmailMessage) : dict :=
  let subject := lower (subject email) in
  let body := lower (body_text email) in
  let result := initial_result in
  let result := detect_notification_type subject body result in
  let result := detect_backup_type subject body result in
  let result := detect_status subject body result in
  extract_source_nas email result.

(** [str.strip()]: white space of Latin-1 and of the general punctuation
    block. *)
Definition is_space (c : N) : bool :=
  ((9 <=? c) && (c <=? 13)) || ((28 <=? c) && (c <=? 32))
  || (c =? 133) || (c =? 160) || (c =? 5760)
  || ((8192 <=? c) && (c <=? 8202)) || (c =? 8232) || (c =? 8233)
  || (c =? 8239) || (c =? 8287) || (c =? 12288).

Fixpoint lstrip (s : str) : str :=
  match s with
  | c :: r => if is_space c then lstrip r else s
  | [] => []
  end.

Definition strip (s : str) : str := rev (lstrip (rev (lstrip s))).

(** [re.search(r'\{[\s\S]*\}', text)]: from the first opening brace to the
    last closing brace after it. *)
Fixpoint upto_last_close (s : str) : option str :=
  match s with
  | [] => None
  | c :: r =>
    match upto_last_close r with
    | Some p => Some (c :: p)
    | None => if c =? 125 then Some [c] else None
    end
  end.

Fixpoint search_object (s : str) : option str :=
  match s with
  | [] => None
  | c :: r =>
    if c =? 123 then
      match upto_last_close r with
      | Some p => Some (c :: p)
      | None => None
      end
    else search_object r
  end.

(** What a call to the oracle does: it raises, or it answers with a text. *)
Inductive oracle_outcome :=
| OracleRaises (e : exn)
| OracleText (response_text : str).

Section Oracle.

(** [json.loads]: the decoded value, [JSONDecodeError] on a text that is no
    JSON, or another exception. *)
Variable json_loads : str -> result pyval.

(** The two providers, from the prompt's user content to their outcome. *)
Variable claude : str -> oracle_outcome.
Variable openai : str -> oracle_outcome.

(** [datetime.isoformat()]. *)
Variable isoformat : Z -> str.

(** [self.provider]. *)
Variable provider : str.

(** [_parse_json_response(response_text)]. *)
Definition _parse_json_response (response_text : str) : result pyval :=
  let response_text := strip response_text in
  match
    match search_object response_text with
    | Some m => json_loads m
    | None => json_loads response_text
    end
  with
  | Ok v => Ok v
  | Raise (JSONDecodeError e) =>
    Ok (PDict
          [(u "is_backup_notification", PBool false);
           (u "notification_type", PStr (u "other"));
           (u "error_message", PStr (u "Erreur de parsing: " ++ e));
           (u "confidence", PInt 0)])
  | Raise e => Raise e
  end.

Definition email_content (email : EmailMessage) : str :=
  [10] ++ u "Sujet: " ++ subject email ++ [10]
  ++ u "De: " ++ sender email ++ [10]
  ++ u "Date: " ++ isoformat (msg_received_at email) ++ [10]
  ++ [10] ++ u "Contenu:" ++ [10]
  ++ body_text email ++ [10].

Definition user_content (email : EmailMessage) : str :=
  u "Analyse cet e-mail:" ++ [10; 10] ++ email_content email.

Definition _analyze_with (oracle : str -> oracle_outcome) (email : EmailMessage)
  : result pyval :=
  match oracle (user_content email) with
  | OracleRaises e => Raise e
  | OracleText response_text => _parse_json_response response_text
  end.

(** The [try] block of [analyze_email]. *)
Definition analyze_try (email : EmailMessage) : result pyval :=
  if str_eqb provider (u "claude") then _analyze_with claude email
  else if str_eqb provider (u "openai") then _analyze_with openai email
  else Raise (ValueError (u "Provider IA non supporté: " ++ provider)).

(** [analyze_email(email)]: the [except Exception] clause turns every raise
    of the [try] block into the fallback analysis. *)
Definition analyze_email (email : EmailMessage) : result pyval :=
  match analyze_try email with
  | Ok result => Ok result
  | Raise _ => Ok (PDict (_fallback_analysis email))
  end.

End Oracle.

End Classifier.

(* ------------------------------------------------------------------------- *)
(** ** The scheduler's own resolver and recorder
       ([SchedulerService._process_backup_notification], scheduler.py) *)

Module TopScheduler.

Import Resolver.
Open Scope Z_scope.

(** The payload with the one more key this reader looks up. *)
Record Payload := mkPayload {
  payload : Analysis;
  a_client_name : option str
}.

(** The [result] dictionary of the function. *)
Record Counts := mkCounts {
  clients_created : Z;
  backups_created : Z;
  events_created : Z
}.

(** [x or datetime.utcnow()]. *)
Definition or_now (t : option Z) (now : Z) : Z :=
  match t with
  | Some x => x
  | None => now
  end.

(** [_process_backup_notification(db, email_record, analysis)], run at [now].
    The client it would create is built without [short_name], a column
    models/client.py declares [nullable=False] with no default: the flush
    that follows [db.add(client)] is refused by the store. *)
Definition _process_backup_notification (now : Z) (db : DB) (email_record : Email)
    (analysis : Payload) : result (DB * Counts) :=
  let source_nas := a_source_nas (payload analysis) in
  let client_name :=
    if truthy_str (a_client_name analysis) then a_client_name analysis
    else source_nas in
  let task_name := str_or (a_task_name (payload analysis)) (u "Default") in
  let backup_type := str_or (a_backup_type (payload analysis)) (u "other") in
  let status := str_or (get_status (payload analysis)) (u "unknown") in
  if negb (truthy_str source_nas) then Ok (db, mkCounts 0 0 0)
  else
    ' client <- scalar_one_or_none
        (filter (fun c => str_eqb (Model.client_name c) (str_or client_name []))
           (clients db)) ;;
    match client with
    | None =>
      Raise (OtherError (u "IntegrityError: null value in column short_name"))
    | Some client =>
      ' backup <- scalar_one_or_none
          (filter (fun b =>
             (backup_client_id b =? client_id client)
             && col_eq (Model.source_nas b) (str_or source_nas [])
             && str_eqb (name b) task_name) (backups db)) ;;
      let '(db, backup, created) :=
        match backup with
        | Some backup => (db, backup, 0)
        | None =>
          let (db', backup) :=
            insert_backup db (fun id =>
              mkBackup id (client_id client) task_name (Some backup_type)
                source_nas None None
                (if str_eqb status (u "success") then OK else FAILED)
                None None None (Some 0) (Some 0) (Some true) (Some false) None) in
          (db', backup, 1)
        end in
      let (db, event) :=
        insert_event db (fun id =>
          mkBackupEvent id (backup_id backup) (email_id email_record) (Some status)
            (Some (or_now (received_at email_record) now)) None
            (a_error_message (payload analysis)) (payload analysis)) in
      let backup :=
        if str_eqb status (u "success") then
          let backup := set_last_success_at backup
                          (Some (or_now (received_at email_record) now)) in
          let backup := set_total_success_count backup
                          (Some (or0 (total_success_count backup) + 1)) in
          set_current_status backup OK
        else if str_eqb status (u "failure") then
          let backup := set_last_failure_at backup
                          (Some (or_now (received_at email_record) now)) in
          let backup := set_total_failure_count backup
                          (Some (or0 (total_failure_count backup) + 1)) in
          set_current_status backup FAILED
        else backup in
      let backup := set_last_event_at backup
                      (Some (or_now (received_at email_record) now)) in
      Ok (update_backup_row db backup, mkCounts 0 created 1)
    end.

End TopScheduler.

(* ------------------------------------------------------------------------- *)
(** ** The report of a batch ([fetch_and_analyze_emails], emails_v2.py):
       the breakdowns by status and by type *)

Module Report.

Open Scope Z_scope.

(** [AnalysisResult] of emails_v2.py. *)
Record AnalysisResult := mkAnalysisResult {
  r_message_id : str;
  r_subject : str;
  r_sender : str;
  r_received_at : option Z;
  r_is_backup_notification : bool;
  r_backup_type : option str;
  r_status : option str;
  r_source_nas : option str;
  r_task_name : option str;
  r_confidence : Z
}.

(** A [Dict[str, int]], keys in the order of their first insertion. *)
Definition tally := list (str * Z).

(** [d.get(k, 0)]. *)
Fixpoint tally_get (d : tally) (k : str) : Z :=
  match d with
  | [] => 0
  | (k', n) :: r => if str_eqb k' k then n else tally_get r k
  end.

(** [d[k] = n]. *)
Fixpoint tally_set (d : tally) (k : str) (n : Z) : tally :=
  match d with
  | [] => [(k, n)]
  | (k', n') :: r =>
    if str_eqb k' k then (k', n) :: r else (k', n') :: tally_set r k n
  end.

(** [sum(1 for r in results if r.is_backup_notification)]. *)
Definition backup_count (results : list AnalysisResult) : Z :=
  Z.of_nat (List.length (filter r_is_backup_notification results)).

(** The loop that fills [by_status] and [by_type]. *)
Fixpoint breakdowns (results : list AnalysisResult) (by_status by_type : tally)
  : tally * tally :=
  match results with
  | [] => (by_status, by_type)
  | r :: rest =>
    if r_is_backup_notification r then
      let status := str_or (r_status r) (u "unknown") in
      let by_status := tally_set by_status status (tally_get by_status status + 1) in
      let btype := str_or (r_backup_type r) (u "unknown") in
      let by_type := tally_set by_type btype (tally_get by_type btype + 1) in
      breakdowns rest by_status by_type
    else breakdowns rest by_status by_type
  end.

Definition by_status (results : list AnalysisResult) : tally :=
  fst (breakdowns results [] []).

Definition by_type (results : list AnalysisResult) : tally :=
  snd (breakdowns results [] []).

End Report.

(* ------------------------------------------------------------------------- *)
(** ** The daily run ([SchedulerService._daily_email_analysis],
       backend/app/services/scheduler.py) *)

Module DailyRun.

Import Resolver Classifier.
Open Scope Z_scope.

(** A row of the table of emails: the message, its key, and what the
    classifier said ([ai_extracted_data]; the [detected_*] columns are read
    off it and are not repeated here). *)
Record EmailRow := mkEmailRow {
  row_id : Z;
  row_message : EmailMessage;
  row_analysis : Analysis;
  row_processed_at : Z
}.

(** The session of the run: the store of the recorder and the emails. *)
Record MailStore := mkMailStore {
  store_db : DB;
  store_emails : list EmailRow;
  next_email_id : Z
}.

Section Run.

(** [ai_analyzer.analyze_email], seen through the schema of the payload. *)
Variable analyze : EmailMessage -> Analysis.

(** The rows with the message id of [email_msg]. *)
Definition known (st : MailStore) (email_msg : EmailMessage) : list EmailRow :=
  filter (fun r => str_eqb (message_id (row_message r)) (message_id email_msg))
    (store_emails st).

(** The body of the loop over the fetched emails, run at [now]. *)
Definition process_email (now : Z) (st : MailStore) (email_msg : EmailMessage)
  : result MailStore :=
  ' existing <- scalar_one_or_none (known st email_msg) ;;
  match existing with
  | Some _ => Ok st
  | None =>
    let analysis := analyze email_msg in
    let email_record := mkEmailRow (next_email_id st) email_msg analysis now in
    let st := mkMailStore (store_db st) (store_emails st ++ [email_record])
                (next_email_id st + 1) in
    if truthy_bool (a_is_backup_notification analysis)
       && truthy_str (a_source_nas analysis)
    then
      ' (db, _) <- DailyJob._create_backup_event (store_db st)
                     (mkEmail (Some (row_id email_record))
                        (Some (subject email_msg))
                        (Some (msg_received_at email_msg)))
                     analysis ;;
      Ok (mkMailStore db (store_emails st) (next_email_id st))
    else Ok st
  end.

Fixpoint process_emails (now : Z) (st : MailStore) (emails : list EmailMessage)
  : result MailStore :=
  match emails with
  | [] => Ok st
  | email_msg :: rest =>
    ' st <- process_email now st email_msg ;;
    process_emails now st rest
  end.

(** [_daily_email_analysis] on the fetched [emails]: the commit ends the
    loop; an exception anywhere leaves the session without commit, and the
    store as it was. *)
Definition _daily_email_analysis (now : Z) (st : MailStore)
    (emails : list EmailMessage) : MailStore :=
  match process_emails now st emails with
  | Ok st' => st'
  | Raise _ => st
  end.

End Run.

End DailyRun.

(* ========================================================================= *)
(** * Properties *)

(* ------------------------------------------------------------------------- *)
(** ** Strings *)

Section StrFacts.

Open Scope N_scope.

Lemma str_eqb_spec (a b : str) : str_eqb a b = true <-> a = b.
Proof.
  revert b; induction a as [|x a IH]; intros [|y b]; simpl;
    try (split; [discriminate | congruence]); try tauto.
  rewrite andb_true_iff, N.eqb_eq, IH. split.
  - intros [-> ->]; reflexivity.
  - intros E; injection E as -> ->; auto.
Qed.

Lemma str_eqb_refl (a : str) : str_eqb a a = true.
Proof. apply str_eqb_spec; reflexivity. Qed.

Lemma startswith_map (f : N -> N) (p s : str) :
  startswith p s = true -> startswith (map f p) (map f s) = true.
Proof.
  revert s; induction p as [|a p IH]; intros [|b s]; simpl; auto.
  rewrite !andb_true_iff, !N.eqb_eq. intros [-> H]. split; auto.
Qed.

Lemma str_in_map (f : N -> N) (p s : str) :
  str_in p s = true -> str_in (map f p) (map f s) = true.
Proof.
  induction s as [|b s IH].
  - simpl. rewrite !orb_false_r. apply (startswith_map f p []).
  - cbn [str_in map]. rewrite !orb_true_iff. intros [H|H].
    + left. apply (startswith_map f p (b :: s)); assumption.
    + right. apply IH; assumption.
Qed.

(** A text that contains a lower-case word still contains it once
    lower-cased. *)
Lemma str_in_lower (kw s : str) :
  lower kw = kw -> str_in kw s = true -> str_in kw (lower s) = true.
Proof.
  intros E H. rewrite <- E. apply str_in_map; assumption.
Qed.

End StrFacts.

Lemma status_eqb_spec (a b : BackupStatus) : status_eqb a b = true <-> a = b.
Proof. destruct a, b; simpl; split; congruence. Qed.


(* ------------------------------------------------------------------------- *)
(** ** Status engine *)

Module StatusEngineFacts.

Import StatusEngine.
Open Scope Z_scope.


Definition hours (h : Z) : Z := h * us_per_hour.

Definition sample_backup (status : BackupStatus) (last_success : option Z)
    (maintenance : option bool) (until : option Z) : Backup :=
  mkBackup 7 3 (u "NABO03 - Daily") (Some (u "hyper_backup")) (Some (u "NABO03"))
    None None status last_success None last_success (Some 1) (Some 0)
    (Some true) maintenance until.



Lemma update_backup_maintenance (now : Z) (b : Backup) :
  truthy_bool (is_maintenance b) = true -> update_backup now b = (b, []).
Proof. intros M. unfold update_backup. rewrite M. reflexivity. Qed.

(** The recomputation touches the status and nothing else. *)
Lemma update_backup_fields (now : Z) (b : Backup) :
  let b' := fst (update_backup now b) in
  b' = set_current_status b (current_status b').
Proof.
  unfold update_backup.
  destruct (truthy_bool (is_maintenance b)).
  - destruct b; reflexivity.
  - destruct (last_success_at b) as [T|]; [|reflexivity].
    cbv zeta.
    match goal with |- context [if ?c then _ else _] => destruct c end;
      reflexivity.
Qed.

Lemma update_backup_alerts (now : Z) (b : Backup) :
  snd (update_backup now b) =
  match last_success_at b with
  | Some T =>
    let b' := fst (update_backup now b) in
    if negb (truthy_bool (is_maintenance b))
       && negb (status_eqb (current_status b) (current_status b'))
       && (status_eqb (current_status b') ALERT
           || status_eqb (current_status b') CRITICAL)
    then [missing_alert b' (now - T)]
    else []
  | None => []
  end.
Proof.
  unfold update_backup.
  destruct (truthy_bool (is_maintenance b)).
  - destruct (last_success_at b); reflexivity.
  - destruct (last_success_at b) as [T|]; [|reflexivity].
    cbv zeta.
    match goal with |- context [if ?c then _ else _] => destruct c eqn:E end;
      cbn [fst snd negb andb]; rewrite E; reflexivity.
Qed.


Lemma update_rows_backups (now : Z) (rows : list Backup) :
  fst (update_rows now rows) =
  map (fun b => if selected b then fst (update_backup now b) else b) rows.
Proof.
  induction rows as [|b rows IH]; [reflexivity|].
  cbn [update_rows map]. destruct (update_rows now rows) as [rest al].
  cbn [fst] in IH. destruct (selected b).
  - destruct (update_backup now b) as [b' a]. cbn [fst]. rewrite IH. reflexivity.
  - cbn [fst]. rewrite IH. reflexivity.
Qed.

Lemma update_rows_alerts (now : Z) (rows : list Backup) :
  snd (update_rows now rows) =
  flat_map (fun b => if selected b then snd (update_backup now b) else []) rows.
Proof.
  induction rows as [|b rows IH]; [reflexivity|].
  cbn [update_rows flat_map]. destruct (update_rows now rows) as [rest al].
  cbn [snd] in IH. destruct (selected b).
  - destruct (update_backup now b) as [b' a]. cbn [snd]. rewrite IH. reflexivity.
  - cbn [snd]. rewrite IH. reflexivity.
Qed.

Lemma job_backups (now : Z) (db : DB) :
  backups (_update_backup_statuses now db) =
  map (fun b => if selected b then fst (update_backup now b) else b) (backups db).
Proof.
  unfold _update_backup_statuses. rewrite <- update_rows_backups.
  destruct (update_rows now (backups db)); reflexivity.
Qed.

Lemma job_alerts (now : Z) (db : DB) :
  alerts (_update_backup_statuses now db) =
  alerts db
  ++ flat_map (fun b => if selected b then snd (update_backup now b) else [])
       (backups db).
Proof.
  unfold _update_backup_statuses. rewrite <- update_rows_alerts.
  destruct (update_rows now (backups db)); reflexivity.
Qed.



End StatusEngineFacts.

Module StatusEngineClaims.

Import StatusEngine StatusEngineFacts Resolver.
Open Scope Z_scope.

(** What the hourly job leaves in the place of the [i]-th backup. *)
Lemma job_nth (now : Z) (db : DB) (i : nat) (b : Backup) :
  nth_error (backups db) i = Some b ->
  nth_error (backups (_update_backup_statuses now db)) i =
  Some (if selected b then fst (update_backup now b) else b).
Proof.
  intros H. rewrite job_backups.
  rewrite nth_error_map, H. reflexivity.
Qed.


Definition one_backup_db (b : Backup) : DB := mkDB [] [b] [] [] 4 8 1.











(** The transition from warning to alert at 50 hours, in full. *)
Example warning_to_alert_at_50h :
  update_backup (hours 50) (sample_backup WARNING (Some 0) (Some false) None)
  = (sample_backup ALERT (Some 0) (Some false) None,
     [mkAlert (u "backup_missing") (u "alert") 3 7
        (u "Sauvegarde manquante: NABO03 - Daily")
        (u "Aucune sauvegarde réussie depuis 50h")]).
Proof. reflexivity. Qed.

(** C7, as stated, fails: a backup in maintenance whose [maintenance_until]
    passed 99 hours ago, last successful 100 hours ago, stays ok; the clock
    rule would make it critical. *)
Lemma expired_maintenance_not_recomputed :
  maintenance_until (sample_backup OK (Some 0) (Some true) (Some (hours 1)))
    = Some (hours 1)
  /\ hours 1 < hours 100
  /\ clock_status (hours 100 - 0) = CRITICAL
  /\ update_backup (hours 100) (sample_backup OK (Some 0) (Some true) (Some (hours 1)))
     = (sample_backup OK (Some 0) (Some true) (Some (hours 1)), [])
  /\ map current_status
       (backups (_update_backup_statuses (hours 100)
          (one_backup_db (sample_backup OK (Some 0) (Some true) (Some (hours 1))))))
     = [OK].
Proof. repeat split. Qed.

(** C7, amended: the recomputation leaves a backup whose [is_maintenance] is
    true as it is and raises no alert for it, whatever [maintenance_until]
    holds (in the future, in the past, or nothing) and however long ago the
    last success was. *)
Theorem maintenance_suppresses_recomputation
    (now : Z) (db : DB) (i : nat) (b : Backup) :
  nth_error (backups db) i = Some b ->
  is_maintenance b = Some true ->
  update_backup now b = (b, [])
  /\ nth_error (backups (_update_backup_statuses now db)) i = Some b.
Proof.
  intros Hn Hm.
  assert (M : truthy_bool (is_maintenance b) = true) by (rewrite Hm; reflexivity).
  split; [apply update_backup_maintenance; assumption|].
  rewrite (job_nth now db i Hn), (update_backup_maintenance now b M).
  destruct (selected b); reflexivity.
Qed.

Lemma maintenance_suppresses_recomputation_witness :
  update_backup (hours 100) (sample_backup OK (Some 0) (Some true) (Some (hours 1)))
    = (sample_backup OK (Some 0) (Some true) (Some (hours 1)), [])
  /\ nth_error (backups (_update_backup_statuses (hours 100)
        (one_backup_db (sample_backup OK (Some 0) (Some true) (Some (hours 1)))))) 0
     = Some (sample_backup OK (Some 0) (Some true) (Some (hours 1))).
Proof.
  exact (maintenance_suppresses_recomputation (hours 100)
           (one_backup_db (sample_backup OK (Some 0) (Some true) (Some (hours 1)))) 0
           eq_refl eq_refl).
Defined.

End StatusEngineClaims.

(* ------------------------------------------------------------------------- *)
(** ** Entity resolver and event recorder *)

Module ResolverFacts.

Import Resolver.
Open Scope Z_scope.

Lemma col_eq_opt_spec (a b : option Z) : col_eq_opt a b = true <-> a = b.
Proof.
  destruct a as [x|], b as [y|]; simpl; try (split; congruence).
  rewrite Z.eqb_eq. split; congruence.
Qed.

Lemma col_eq_opt_refl (a : option Z) : col_eq_opt a a = true.
Proof. apply col_eq_opt_spec; reflexivity. Qed.

Lemma scalar_one_or_none_many {A : Type} (rows : list A) :
  (2 <= List.length rows)%nat -> scalar_one_or_none rows = Raise MultipleResultsFound.
Proof. destruct rows as [|x [|y r]]; simpl; intros; [lia|lia|reflexivity]. Qed.

Lemma filter_unique_in {A : Type} (f : A -> bool) (l : list A) (e : A) :
  (List.length (filter f l) <= 1)%nat -> In e l -> f e = true -> filter f l = [e].
Proof.
  intros Hl Hi Hf.
  assert (Hin : In e (filter f l)) by (apply filter_In; split; assumption).
  destruct (filter f l) as [|x [|y r]]; simpl in *.
  - contradiction.
  - destruct Hin as [->|[]]. reflexivity.
  - lia.
Qed.

(** *** The client prefix *)

Lemma take_AZ_run (letters rest : str) (n : nat) :
  forallb is_AZ letters = true ->
  (List.length letters <= n)%nat ->
  (List.length letters = n
   \/ match rest with [] => True | c :: _ => is_AZ c = false end) ->
  take_AZ n (letters ++ rest) = letters.
Proof.
  revert n; induction letters as [|a letters IH]; intros n Hall Hlen Hend.
  - simpl. destruct n as [|n]; [reflexivity|].
    destruct rest as [|c rest]; [reflexivity|].
    destruct Hend as [Hend|Hend]; [discriminate|]. simpl. rewrite Hend. reflexivity.
  - simpl in Hall. apply andb_true_iff in Hall as [Ha Hall].
    destruct n as [|n]; [simpl in Hlen; lia|].
    simpl. rewrite Ha. f_equal. apply IH; [assumption|simpl in Hlen; lia|].
    destruct Hend as [Hend|Hend]; [left; simpl in Hend; lia|right; assumption].
Qed.

Lemma take_AZ_split (n : nat) (s : str) :
  exists rest,
    s = take_AZ n s ++ rest
    /\ forallb is_AZ (take_AZ n s) = true
    /\ (List.length (take_AZ n s) <= n)%nat.
Proof.
  revert s; induction n as [|n IH]; intros s.
  - exists s. destruct s; simpl; repeat split; lia.
  - destruct s as [|c r]; [exists []; simpl; repeat split; lia|].
    simpl. destruct (is_AZ c) eqn:E.
    + destruct (IH r) as (rest & H1 & H2 & H3). exists rest. simpl.
      rewrite E, H2. repeat split; [congruence|lia].
    + exists (c :: r). simpl. repeat split; lia.
Qed.

Lemma prefix_match_some (letters rest : str) :
  (2 <= List.length letters <= 4)%nat ->
  forallb is_AZ letters = true ->
  (List.length letters = 4%nat
   \/ match rest with [] => True | c :: _ => is_AZ c = false end) ->
  prefix_match (78%N :: letters ++ rest) = Some (78%N :: letters).
Proof.
  intros Hlen Hall Hend. unfold prefix_match.
  rewrite (take_AZ_run letters rest (n := 4) Hall); [|lia|assumption].
  replace (2 <=? List.length letters)%nat with true
    by (symmetry; apply Nat.leb_le; lia).
  reflexivity.
Qed.

Lemma prefix_match_inv (s g : str) :
  prefix_match s = Some g ->
  exists letters rest,
    s = 78%N :: letters ++ rest
    /\ g = 78%N :: letters
    /\ (2 <= List.length letters <= 4)%nat
    /\ forallb is_AZ letters = true.
Proof.
  unfold prefix_match. destruct s as [|c r]; [discriminate|].
  destruct (N.eqb_spec c 78) as [->|]; [|discriminate].
  destruct (Nat.leb_spec 2 (List.length (take_AZ 4 r))) as [H2|]; [|discriminate].
  cbn [andb]. intros E; injection E as <-.
  destruct (take_AZ_split 4 r) as (rest & H1 & Hall & H4).
  exists (take_AZ 4 r), rest. repeat split; try assumption. congruence.
Qed.

(** *** The scenario of the specification *)

Definition nabo_signal (status : option (option str)) (dest : option str)
    (devices : option (list str)) (err : option str) : Analysis :=
  mkAnalysis (Some true) (Some (u "hyper_backup")) status (Some (u "NABO03"))
    dest (Some (u "Daily")) devices err.

Definition nabo_client (id : Z) : Client :=
  mkClient id (u "Client NABO") (u "NABO")
    (Some (u "Client cree automatiquement depuis l'analyse des emails"))
    (Some [u "NABO03"]) (Some true).

Definition nabo_backup (id cid : Z) (dest : option str)
    (devices : option (list str)) : Backup :=
  mkBackup id cid (u "NABO03 - Daily") (Some (u "hyper_backup")) (Some (u "NABO03"))
    (match devices with Some ((_ :: _) as l) => Some (join (u ", ") l) | _ => None end)
    (match dest with Some ((_ :: _) as d) => Some (upper d) | _ => None end)
    UNKNOWN None None None (Some 0) (Some 0) (Some true) (Some false) None.

Lemma client_created bs ev al n m k :
  get_or_create_client (mkDB [] bs ev al n m k) (u "NABO03")
  = Ok (mkDB [nabo_client n] bs ev al (n + 1) m k, nabo_client n, true).
Proof. reflexivity. Qed.

Lemma client_found bs ev al n n' m k :
  get_or_create_client (mkDB [nabo_client n] bs ev al n' m k) (u "NABO03")
  = Ok (mkDB [nabo_client n] bs ev al n' m k, nabo_client n, false).
Proof.
  unfold get_or_create_client, update_client, put_client.
  cbn -[Z.eqb]. rewrite Z.eqb_refl. reflexivity.
Qed.

Lemma backup_created cs ev al n n' m k st dest dev err :
  get_or_create_backup (mkDB cs [] ev al n' m k) (nabo_client n)
    (nabo_signal st dest dev err)
  = Ok (mkDB cs [nabo_backup m n dest dev] ev al n' (m + 1) k,
        nabo_backup m n dest dev, true).
Proof.
  unfold get_or_create_backup. cbn -[Z.add].
  destruct dev as [[|d dev]|], dest as [[|c dest]|]; reflexivity.
Qed.

Lemma backup_found cs ev al n n' m m' k st dest dev err :
  get_or_create_backup (mkDB cs [nabo_backup m n dest dev] ev al n' m' k)
    (nabo_client n) (nabo_signal st dest dev err)
  = Ok (mkDB cs [nabo_backup m n dest dev] ev al n' m' k,
        nabo_backup m n dest dev, false).
Proof.
  unfold get_or_create_backup, candidate_backups.
  cbn -[Z.eqb]. rewrite Z.eqb_refl. reflexivity.
Qed.

(** *** The recorder *)

(** The backup as a newly recorded event leaves it. *)
Definition recorded_backup (backup : Backup) (email : Email) (analysis : Analysis)
  : Backup :=
  set_last_event_at
    (if str_eqb (event_type_of analysis) (u "success") then
       set_current_status
         (set_total_success_count (set_last_success_at backup (received_at email))
            (Some (or0 (total_success_count backup) + 1))) OK
     else if str_eqb (event_type_of analysis) (u "failure") then
       set_current_status
         (set_total_failure_count (set_last_failure_at backup (received_at email))
            (Some (or0 (total_failure_count backup) + 1))) FAILED
     else backup)
    (received_at email).

Definition new_event (now : Z) (db : DB) (backup : Backup) (email : Email)
    (analysis : Analysis) : BackupEvent :=
  mkBackupEvent (next_event_id db) (backup_id backup) (email_id email)
    (Some (event_type_of analysis))
    (Some (match received_at email with Some t => t | None => now end))
    (email_subject email) None analysis.

Definition recorded_db (now : Z) (db : DB) (backup : Backup) (email : Email)
    (analysis : Analysis) : DB :=
  mkDB (clients db) (put_backup (recorded_backup backup email analysis) (backups db))
    (events db ++ [new_event now db backup email analysis]) (alerts db)
    (next_client_id db) (next_backup_id db) (next_event_id db + 1).

Lemma create_existing now db backup email analysis e :
  existing_events db backup email = [e] ->
  create_backup_event now db backup email analysis = Ok (db, backup, e, false).
Proof. intros H. unfold create_backup_event. rewrite H. reflexivity. Qed.

Lemma create_new now db backup email analysis :
  existing_events db backup email = [] ->
  create_backup_event now db backup email analysis
  = Ok (recorded_db now db backup email analysis,
        recorded_backup backup email analysis,
        new_event now db backup email analysis, true).
Proof.
  intros H. unfold create_backup_event. rewrite H. cbn [scalar_one_or_none bind].
  unfold insert_event, recorded_db, recorded_backup, update_backup_row.
  cbn [clients backups events alerts next_client_id next_backup_id next_event_id].
  destruct (str_eqb (event_type_of analysis) (u "success"));
    [reflexivity|].
  destruct (str_eqb (event_type_of analysis) (u "failure")); reflexivity.
Qed.

Lemma create_many now db backup email analysis :
  (2 <= List.length (existing_events db backup email))%nat ->
  create_backup_event now db backup email analysis = Raise MultipleResultsFound.
Proof.
  intros H. unfold create_backup_event.
  rewrite (scalar_one_or_none_many _ H). reflexivity.
Qed.

Lemma recorded_backup_id backup email analysis :
  backup_id (recorded_backup backup email analysis) = backup_id backup.
Proof.
  unfold recorded_backup.
  destruct (str_eqb _ (u "success")); [reflexivity|].
  destruct (str_eqb _ (u "failure")); reflexivity.
Qed.

Lemma recorded_backup_last_event_at backup email analysis :
  last_event_at (recorded_backup backup email analysis) = received_at email.
Proof. reflexivity. Qed.

(** At most one event for each pair (backup, email). *)
Definition events_unique (db : DB) : Prop :=
  forall backup email, (List.length (existing_events db backup email) <= 1)%nat.

Lemma existing_after_record now db backup email analysis b' :
  existing_events db backup email = [] ->
  backup_id b' = backup_id backup ->
  existing_events (recorded_db now db backup email analysis) b' email
  = [new_event now db backup email analysis].
Proof.
  intros H Hid. unfold existing_events in *.
  cbn [recorded_db events]. rewrite filter_app, Hid, H.
  cbn [filter new_event event_backup_id event_email_id app].
  rewrite Z.eqb_refl, col_eq_opt_refl. reflexivity.
Qed.

Lemma events_unique_after_record now db backup email analysis :
  events_unique db ->
  existing_events db backup email = [] ->
  events_unique (recorded_db now db backup email analysis).
Proof.
  intros U H b2 e2. unfold existing_events in *.
  cbn [recorded_db events]. rewrite filter_app, length_app.
  cbn [filter new_event event_backup_id event_email_id].
  destruct ((backup_id backup =? backup_id b2)
            && col_eq_opt (email_id email) (email_id e2)) eqn:E.
  - apply andb_true_iff in E as [E1 E2].
    apply Z.eqb_eq in E1. apply col_eq_opt_spec in E2.
    rewrite <- E1, <- E2, H. simpl. lia.
  - specialize (U b2 e2). unfold existing_events in U. simpl. lia.
Qed.

End ResolverFacts.

Module ResolverClaims.

Import Resolver ResolverFacts DailyJob.
Open Scope Z_scope.

(** C1: on a store without clients and backups, the signal (NABO03,
    hyper_backup, Daily) makes one client, with short name NABO and NABO03
    among its identifiers, and one backup, named "NABO03 - Daily"; the same
    signal again finds both and leaves the store as it is.  The prefix is the
    letter N with the two to four capitals that follow it in the upper-cased
    identifier, whatever comes next (digits or not), and the upper-cased
    identifier itself when it does not start so. *)
Theorem entity_auto_creation_idempotent
    (st : option (option str)) (dest : option str) (dev : option (list str))
    (err : option str) (ev : list BackupEvent) (al : list Alert) (n m k : Z) :
  let sig := nabo_signal st dest dev err in
  let db0 := mkDB [] [] ev al n m k in
  (exists db1 c b,
     resolve db0 sig = Ok (Some (db1, c, b, true, true))
     /\ clients db1 = [c]
     /\ short_name c = u "NABO"
     /\ nas_identifiers c = Some [u "NABO03"]
     /\ backups db1 = [b]
     /\ backup_client_id b = client_id c
     /\ name b = u "NABO03 - Daily"
     /\ str_in (u "Daily") (name b) = true
     /\ current_status b = UNKNOWN
     /\ resolve db1 sig = Ok (Some (db1, c, b, false, false)))
  /\ client_prefix (u "NABO03") = u "NABO"
  /\ (forall letters rest : str,
        (2 <= List.length letters <= 4)%nat ->
        forallb is_AZ letters = true ->
        (List.length letters = 4%nat
         \/ match rest with [] => True | c :: _ => is_AZ c = false end) ->
        prefix_match (78%N :: letters ++ rest) = Some (78%N :: letters))
  /\ (forall s g : str,
        prefix_match (upper s) = Some g ->
        client_prefix s = g
        /\ exists letters rest,
             upper s = 78%N :: letters ++ rest
             /\ g = 78%N :: letters
             /\ (2 <= List.length letters <= 4)%nat
             /\ forallb is_AZ letters = true)
  /\ (forall s : str, prefix_match (upper s) = None -> client_prefix s = upper s).
Proof.
  cbv zeta. split; [|split; [reflexivity|split; [|split]]].
  - exists (mkDB [nabo_client n] [nabo_backup m n dest dev] ev al (n + 1) (m + 1) k),
      (nabo_client n), (nabo_backup m n dest dev).
    assert (R1 : resolve (mkDB [] [] ev al n m k) (nabo_signal st dest dev err)
                 = Ok (Some (mkDB [nabo_client n] [nabo_backup m n dest dev] ev al
                               (n + 1) (m + 1) k,
                             nabo_client n, nabo_backup m n dest dev, true, true))).
    { unfold resolve.
      change (a_source_nas (nabo_signal st dest dev err)) with (Some (u "NABO03")).
      change (u "NABO03") with [78; 65; 66; 79; 48; 51]%N at 1.
      cbn [a_is_backup_notification nabo_signal truthy_bool].
      change [78; 65; 66; 79; 48; 51]%N with (u "NABO03").
      rewrite client_created. cbn [bind].
      fold (nabo_signal st dest dev err). rewrite backup_created. reflexivity. }
    assert (R2 : resolve (mkDB [nabo_client n] [nabo_backup m n dest dev] ev al
                            (n + 1) (m + 1) k) (nabo_signal st dest dev err)
                 = Ok (Some (mkDB [nabo_client n] [nabo_backup m n dest dev] ev al
                               (n + 1) (m + 1) k,
                             nabo_client n, nabo_backup m n dest dev, false, false))).
    { unfold resolve.
      change (a_source_nas (nabo_signal st dest dev err)) with (Some (u "NABO03")).
      change (u "NABO03") with [78; 65; 66; 79; 48; 51]%N at 1.
      cbn [a_is_backup_notification nabo_signal truthy_bool].
      change [78; 65; 66; 79; 48; 51]%N with (u "NABO03").
      rewrite client_found. cbn [bind].
      fold (nabo_signal st dest dev err). rewrite backup_found. reflexivity. }
    repeat split; assumption || reflexivity.
  - intros letters rest. apply prefix_match_some.
  - intros s g H. split.
    + unfold client_prefix. rewrite H. reflexivity.
    + apply prefix_match_inv; assumption.
  - intros s H. unfold client_prefix. rewrite H. reflexivity.
Qed.

Lemma events_unique_single (cs : list Client) (bs : list Backup) (e : BackupEvent)
    (al : list Alert) (n m k : Z) :
  events_unique (mkDB cs bs [e] al n m k).
Proof.
  intros b em. unfold existing_events. cbn [events filter].
  destruct (_ && _); simpl; lia.
Qed.

(** C4: in a store with at most one event for each pair (backup, email), when
    an event exists for (backup.id, email.id) the recorder returns it with
    created = false and leaves the store and the backup (counters, timestamps,
    status) as they are; and whatever the first recording of an email did,
    recording the same email again for that backup returns the same event,
    creates nothing and changes nothing. *)
Theorem event_recording_idempotent
    (now : Z) (db : DB) (backup : Backup) (email : Email) (analysis : Analysis) :
  events_unique db ->
  (forall e,
     In e (events db) ->
     event_backup_id e = backup_id backup ->
     event_email_id e = email_id email ->
     forall now' analysis',
       create_backup_event now' db backup email analysis'
       = Ok (db, backup, e, false))
  /\ (exists db1 b1 ev created,
        create_backup_event now db backup email analysis = Ok (db1, b1, ev, created)
        /\ events_unique db1
        /\ forall now' analysis' b',
             backup_id b' = backup_id backup ->
             create_backup_event now' db1 b' email analysis'
             = Ok (db1, b', ev, false)).
Proof.
  intros U. split.
  - intros e Hin Hb He now' analysis'. apply create_existing.
    apply filter_unique_in; [apply (U backup email)|assumption|].
    rewrite Hb, He, Z.eqb_refl, col_eq_opt_refl. reflexivity.
  - destruct (existing_events db backup email) as [|e [|e2 r]] eqn:E.
    + exists (recorded_db now db backup email analysis),
        (recorded_backup backup email analysis),
        (new_event now db backup email analysis), true.
      split; [apply create_new; assumption|].
      split; [apply events_unique_after_record; assumption|].
      intros now' analysis' b' Hid. apply create_existing.
      apply existing_after_record; assumption.
    + exists db, backup, e, false.
      split; [apply create_existing; assumption|].
      split; [assumption|].
      intros now' analysis' b' Hid. apply create_existing.
      unfold existing_events in *. rewrite Hid. assumption.
    + specialize (U backup email). rewrite E in U. simpl in U. lia.
Qed.

Definition tracked_backup (last_event : option Z) : Backup :=
  mkBackup 1 1 (u "NABO03 - Daily") (Some (u "hyper_backup")) (Some (u "NABO03"))
    None None OK last_event None last_event (Some 1) (Some 0)
    (Some true) (Some false) None.

Definition recorded_event : BackupEvent :=
  mkBackupEvent 1 1 (Some 5) (Some (u "success")) (Some 36000000000)
    (Some (u "Hyper Backup - NABO03 - Success")) None
    (nabo_signal (Some (Some (u "success"))) None None None).

Lemma event_recording_idempotent_witness :
  (forall e,
     In e [recorded_event] ->
     event_backup_id e = 1 ->
     event_email_id e = Some 5 ->
     forall now' analysis',
       create_backup_event now'
         (mkDB [nabo_client 1] [tracked_backup (Some 36000000000)] [recorded_event]
            [] 2 2 2)
         (tracked_backup (Some 36000000000))
         (mkEmail (Some 5) (Some (u "Hyper Backup - NABO03 - Success"))
            (Some 36000000000))
         analysis'
       = Ok (mkDB [nabo_client 1] [tracked_backup (Some 36000000000)]
               [recorded_event] [] 2 2 2,
             tracked_backup (Some 36000000000), e, false))
  /\ (exists db1 b1 ev created,
        create_backup_event 0
          (mkDB [nabo_client 1] [tracked_backup (Some 36000000000)] [recorded_event]
             [] 2 2 2)
          (tracked_backup (Some 36000000000))
          (mkEmail (Some 5) (Some (u "Hyper Backup - NABO03 - Success"))
             (Some 36000000000))
          (nabo_signal (Some (Some (u "success"))) None None None)
        = Ok (db1, b1, ev, created)
        /\ events_unique db1
        /\ forall now' analysis' b',
             backup_id b' = 1 ->
             create_backup_event now' db1 b'
               (mkEmail (Some 5) (Some (u "Hyper Backup - NABO03 - Success"))
                  (Some 36000000000))
               analysis'
             = Ok (db1, b', ev, false)).
Proof.
  exact (event_recording_idempotent 0
           (db := mkDB [nabo_client 1] [tracked_backup (Some 36000000000)]
                    [recorded_event] [] 2 2 2)
           (tracked_backup (Some 36000000000))
           (mkEmail (Some 5) (Some (u "Hyper Backup - NABO03 - Success"))
              (Some 36000000000))
           (nabo_signal (Some (Some (u "success"))) None None None)
           (events_unique_single _ _ _ _ _ _ _)).
Defined.

(** *** Ambiguous candidates *)

(** The rows [get_or_create_backup] looks up for a payload. *)
Definition signal_candidates (db : DB) (client : Client) (analysis : Analysis)
  : list Backup :=
  let source_nas := upper (str_or (a_source_nas analysis) (u "UNKNOWN")) in
  let backup_type := str_or (a_backup_type analysis) (u "other") in
  let task_name := str_or (a_task_name analysis) [] in
  let devices := match a_devices analysis with Some l => l | None => [] end in
  candidate_backups db client source_nas backup_type task_name
    (backup_name_of source_nas backup_type task_name devices).

(** The rows of the two lookups of the daily job. *)
Definition rows_by_source (db : DB) (sn : str) : list Backup :=
  filter (fun b => col_eq (Model.source_nas b) sn) (backups db).

Definition rows_by_source_and_name (db : DB) (sn tn : str) : list Backup :=
  filter (fun b => col_eq (Model.source_nas b) sn && str_eqb (name b) tn)
    (backups db).

Definition ambiguous_db : DB :=
  mkDB [nabo_client 1]
    [nabo_backup 1 1 None None;
     mkBackup 2 1 (u "NABO03 - Daily Full") (Some (u "hyper_backup"))
       (Some (u "NABO03")) None None OK (Some 0) None (Some 0) (Some 1) (Some 0)
       (Some true) (Some false) None]
    [] [] 2 3 1.

(** C5, as stated, fails: with two backups of client NABO that match the
    signal (NABO03, hyper_backup, Daily), the resolver of emails_v2 raises
    [MultipleResultsFound], and the daily job drops the signal. *)
Lemma ambiguous_candidates_not_resolved :
  List.length (signal_candidates ambiguous_db (nabo_client 1)
                 (nabo_signal None None None None)) = 2%nat
  /\ get_or_create_backup ambiguous_db (nabo_client 1)
       (nabo_signal None None None None) = Raise MultipleResultsFound
  /\ resolve ambiguous_db (nabo_signal None None None None)
     = Raise MultipleResultsFound
  /\ List.length (rows_by_source ambiguous_db (u "NABO03")) = 2%nat
  /\ _create_backup_event ambiguous_db (mkEmail (Some 5) None (Some 0))
       (nabo_signal None None None None)
     = Ok (ambiguous_db,
           [mkLog LogWarning (u "Sauvegarde non trouvée pour NAS=NABO03, tâche=Daily")]).
Proof. repeat split. Qed.

(** C5, amended: when two or more backups match a signal, no candidate is
    picked and no duplicate is made.  The resolver of emails_v2 fails with
    [MultipleResultsFound]; so does the daily job when two or more backups
    have the source and the name; and when none has both and two or more have
    the source, the daily job drops the signal: the store is unchanged (no
    event, no backup touched) and one warning is logged. *)
Theorem ambiguous_match_raises_or_drops
    (db : DB) (client : Client) (email : Email) (analysis : Analysis) :
  ((2 <= List.length (signal_candidates db client analysis))%nat ->
     get_or_create_backup db client analysis = Raise MultipleResultsFound)
  /\ (forall sn tn,
        a_source_nas analysis = Some sn -> sn <> [] ->
        a_task_name analysis = Some tn -> tn <> [] ->
        (2 <= List.length (rows_by_source_and_name db sn tn))%nat ->
        _create_backup_event db email analysis = Raise MultipleResultsFound)
  /\ (forall sn,
        a_source_nas analysis = Some sn -> sn <> [] ->
        (truthy_str (a_task_name analysis) = false
         \/ rows_by_source_and_name db sn (str_or (a_task_name analysis) []) = []) ->
        (2 <= List.length (rows_by_source db sn))%nat ->
        _create_backup_event db email analysis
        = Ok (db,
              [mkLog LogWarning
                 (u "Sauvegarde non trouvée pour NAS=" ++ sn
                  ++ u ", tâche=" ++ fmt (a_task_name analysis))])).
Proof.
  split; [|split].
  - intros H. unfold get_or_create_backup.
    fold (signal_candidates db client analysis).
    rewrite (scalar_one_or_none_many _ H). reflexivity.
  - intros sn tn Hs Hsn Ht Htn H.
    unfold _create_backup_event, find_backup. rewrite Hs, Ht.
    destruct sn as [|c sn]; [congruence|]. destruct tn as [|d tn]; [congruence|].
    cbn [truthy_str andb str_or].
    fold (rows_by_source_and_name db (c :: sn) (d :: tn)).
    rewrite (scalar_one_or_none_many _ H). reflexivity.
  - intros sn Hs Hsn Hname H.
    unfold _create_backup_event, find_backup. rewrite Hs.
    destruct sn as [|c sn]; [congruence|].
    cbn [truthy_str andb str_or fmt].
    fold (rows_by_source db (c :: sn)).
    assert (Hrows : match rows_by_source db (c :: sn) with
                    | [b] => Ok (Some b)
                    | _ => Ok None
                    end = Ok None).
    { destruct (rows_by_source db (c :: sn)) as [|x [|y r]]; simpl in H;
        [lia|lia|reflexivity]. }
    destruct Hname as [Hf|He].
    + rewrite Hf. cbn [bind]. rewrite Hrows. reflexivity.
    + destruct (truthy_str (a_task_name analysis)).
      * fold (rows_by_source_and_name db (c :: sn) (str_or (a_task_name analysis) [])).
        rewrite He. cbn [scalar_one_or_none bind]. rewrite Hrows. reflexivity.
      * cbn [bind]. rewrite Hrows. reflexivity.
Qed.

Lemma ambiguous_match_raises_or_drops_witness :
  get_or_create_backup ambiguous_db (nabo_client 1) (nabo_signal None None None None)
  = Raise MultipleResultsFound
  /\ _create_backup_event ambiguous_db (mkEmail (Some 5) None (Some 0))
       (nabo_signal None None None None)
     = Ok (ambiguous_db,
           [mkLog LogWarning
              (u "Sauvegarde non trouvée pour NAS=" ++ u "NABO03"
               ++ u ", tâche=" ++ fmt (Some (u "Daily")))]).
Proof.
  pose proof (ambiguous_match_raises_or_drops ambiguous_db (nabo_client 1)
                (mkEmail (Some 5) None (Some 0)) (nabo_signal None None None None))
    as (H1 & _ & H3).
  split.
  - apply H1. vm_compute. lia.
  - apply (H3 (u "NABO03")).
    + reflexivity.
    + discriminate.
    + right. reflexivity.
    + vm_compute. lia.
Defined.

(** *** [last_event_at] *)

Lemma put_backup_in (b b' : Backup) (l : list Backup) :
  In b l -> backup_id b' = backup_id b -> In b' (put_backup b' l).
Proof.
  intros Hin Hid. unfold put_backup. apply in_map_iff. exists b.
  rewrite Hid, Z.eqb_refl. split; [reflexivity|assumption].
Qed.

Lemma find_backup_in (db : DB) (analysis : Analysis) (b : Backup) :
  find_backup db analysis = Ok (Some b) -> In b (backups db).
Proof.
  unfold find_backup.
  set (byname := filter _ (backups db)). set (bysrc := filter _ (backups db)).
  assert (Hsrc : (if truthy_str (a_source_nas analysis)
                  then match bysrc with [x] => Ok (Some x) | _ => Ok None end
                  else Ok None) = Ok (Some b) -> In b (backups db)).
  { destruct (truthy_str (a_source_nas analysis)); [|discriminate].
    destruct bysrc as [|x [|y r]] eqn:E; try discriminate.
    intros H; injection H as ->.
    assert (Hin : In b bysrc) by (rewrite E; left; reflexivity).
    apply filter_In in Hin. tauto. }
  destruct (truthy_str (a_source_nas analysis) && truthy_str (a_task_name analysis)).
  - destruct byname as [|x [|y r]] eqn:E; cbn [scalar_one_or_none bind].
    + exact Hsrc.
    + intros H; injection H as ->.
      assert (Hin : In b byname) by (rewrite E; left; reflexivity).
      apply filter_In in Hin. tauto.
    + discriminate.
  - cbn [bind]. exact Hsrc.
Qed.

(** C9, as stated, fails: a backup whose last event is at 10h gets an email
    received at 3h recorded, and its [last_event_at] goes back to 3h. *)
Lemma older_event_moves_last_event_at_back :
  exists db1 b1 ev,
    create_backup_event 0
      (mkDB [nabo_client 1] [tracked_backup (Some 36000000000)] [] [] 2 2 1)
      (tracked_backup (Some 36000000000))
      (mkEmail (Some 9) (Some (u "Hyper Backup - NABO03 - Success"))
         (Some 10800000000))
      (nabo_signal (Some (Some (u "success"))) None None None)
    = Ok (db1, b1, ev, true)
    /\ last_event_at (tracked_backup (Some 36000000000)) = Some 36000000000
    /\ last_event_at b1 = Some 10800000000
    /\ map last_event_at (backups db1) = [Some 10800000000]
    /\ 10800000000 < 36000000000.
Proof. do 3 eexists. repeat split. Qed.

(** C9, amended: every recording that creates an event sets the backup's
    [last_event_at] to the time the email was received, be it newer or older
    than the value before (and null when the email has no such time); a
    recording that finds the event already there leaves [last_event_at] as it
    is.  The daily job's recorder sets it the same way. *)
Theorem last_event_at_is_last_recorded
    (db : DB) (backup : Backup) (email : Email) (analysis : Analysis) :
  (forall now db1 b1 ev created,
     create_backup_event now db backup email analysis = Ok (db1, b1, ev, created) ->
     last_event_at b1
     = if created then received_at email else last_event_at backup)
  /\ (forall db2 logs,
        find_backup db analysis = Ok (Some backup) ->
        _create_backup_event db email analysis = Ok (db2, logs) ->
        exists b2,
          In b2 (backups db2)
          /\ backup_id b2 = backup_id backup
          /\ last_event_at b2 = received_at email).
Proof.
  split.
  - intros now db1 b1 ev created.
    destruct (existing_events db backup email) as [|e [|e2 r]] eqn:E.
    + rewrite (create_new now db backup email analysis E).
      intros H; injection H as <- <- <- <-. reflexivity.
    + rewrite (create_existing now db backup email analysis E).
      intros H; injection H as <- <- <- <-. reflexivity.
    + rewrite create_many; [discriminate|]. rewrite E. simpl. lia.
  - intros db2 logs Hf. pose proof (find_backup_in db analysis Hf) as Hin.
    unfold _create_backup_event. rewrite Hf. cbn [bind].
    unfold insert_event, update_backup_row.
    cbn [clients backups events alerts next_client_id next_backup_id next_event_id].
    set (et := match a_status analysis with Some v => v | None => Some (u "unknown") end).
    assert (Hput : forall b',
              backup_id b' = backup_id backup ->
              exists b2,
                In b2 (put_backup (set_last_event_at b' (received_at email)) (backups db))
                /\ backup_id b2 = backup_id backup
                /\ last_event_at b2 = received_at email).
    { intros b' Hid. exists (set_last_event_at b' (received_at email)).
      split; [apply put_backup_in with (b := backup); [assumption|exact Hid]|].
      split; [exact Hid|reflexivity]. }
    destruct (col_eq et (u "success")).
    + cbn [set_last_success_at total_success_count].
      destruct (total_success_count backup) as [c|]; cbn [incr bind]; [|discriminate].
      intros H; injection H as <- _. apply Hput. reflexivity.
    + destruct (col_eq et (u "failure")).
      * cbn [set_last_failure_at total_failure_count].
        destruct (total_failure_count backup) as [c|]; cbn [incr bind]; [|discriminate].
        intros H; injection H as <- _. apply Hput. reflexivity.
      * cbn [bind]. intros H; injection H as <- _. apply Hput. reflexivity.
Qed.

Lemma last_event_at_is_last_recorded_witness :
  last_event_at
    (recorded_backup (tracked_backup (Some 36000000000))
       (mkEmail (Some 9) (Some (u "Hyper Backup - NABO03 - Success"))
          (Some 10800000000))
       (nabo_signal (Some (Some (u "success"))) None None None))
  = Some 10800000000.
Proof.
  exact (proj1 (last_event_at_is_last_recorded
                  (mkDB [nabo_client 1] [tracked_backup (Some 36000000000)] [] [] 2 2 1)
                  (tracked_backup (Some 36000000000))
                  (mkEmail (Some 9) (Some (u "Hyper Backup - NABO03 - Success"))
                     (Some 10800000000))
                  (nabo_signal (Some (Some (u "success"))) None None None))
           0 _ _ _ true eq_refl).
Defined.

End ResolverClaims.

(* ------------------------------------------------------------------------- *)
(** ** Email classifier *)

Module ClassifierFacts.

Import Classifier.
Open Scope N_scope.

(** Case-blind containment, the test the fallback makes: the keyword occurs
    in the lower-cased subject or body. *)
Definition mentions (kw : str) (email : EmailMessage) : Prop :=
  str_in kw (lower (subject email)) = true
  \/ str_in kw (lower (body_text email)) = true.

Lemma any_kw_intro (kws : list str) (kw subject body : str) :
  In kw kws ->
  str_in kw subject = true \/ str_in kw body = true ->
  any_kw kws subject body = true.
Proof.
  intros Hin H. unfold any_kw. apply existsb_exists. exists kw.
  split; [assumption|]. apply orb_true_iff. assumption.
Qed.

Lemma status_keywords_lower (kw : str) :
  In kw success_keywords \/ In kw failure_keywords -> lower kw = kw.
Proof.
  unfold success_keywords, failure_keywords. simpl.
  intros [H|H]; repeat (destruct H as [<-|H]; [reflexivity|]); contradiction.
Qed.

Lemma contains_mentions (kw : str) (email : EmailMessage) :
  In kw success_keywords \/ In kw failure_keywords ->
  str_in kw (subject email) = true \/ str_in kw (body_text email) = true ->
  mentions kw email.
Proof.
  intros Hk [H|H]; [left|right];
    apply str_in_lower; auto using status_keywords_lower.
Qed.

Lemma dict_get_set_same (d : dict) (k : str) (v : pyval) :
  dict_get (dict_set d k v) k = Some v.
Proof.
  induction d as [|[k' v'] r IH]; simpl.
  - rewrite str_eqb_refl. reflexivity.
  - destruct (str_eqb k' k) eqn:E; simpl; rewrite E; [reflexivity|assumption].
Qed.

Lemma dict_get_set_other (d : dict) (k k' : str) (v : pyval) :
  str_eqb k k' = false -> dict_get (dict_set d k v) k' = dict_get d k'.
Proof.
  intros H. induction d as [|[k0 v0] r IH]; simpl.
  - rewrite H. reflexivity.
  - destruct (str_eqb k0 k) eqn:E; simpl.
    + apply str_eqb_spec in E. subst k0. rewrite H. reflexivity.
    + rewrite IH. reflexivity.
Qed.

Lemma dict_set_keys (d : dict) (k : str) (v : pyval) :
  In k (map fst d) -> map fst (dict_set d k v) = map fst d.
Proof.
  induction d as [|[k0 v0] r IH]; simpl; [contradiction|].
  destruct (str_eqb k0 k) eqn:E; simpl; [reflexivity|].
  intros [H|H]; [subst k0; rewrite str_eqb_refl in E; discriminate|].
  rewrite IH; [reflexivity|assumption].
Qed.

Ltac split_ifs :=
  repeat match goal with
         | |- context [if ?c then _ else _] => destruct c
         end.

Lemma detect_notification_type_get (subject body : str) (result : dict) (k : str) :
  str_eqb (u "is_backup_notification") k = false ->
  str_eqb (u "notification_type") k = false ->
  dict_get (detect_notification_type subject body result) k = dict_get result k.
Proof.
  intros H1 H2. unfold detect_notification_type. split_ifs;
    repeat (rewrite dict_get_set_other by assumption); reflexivity.
Qed.

Lemma detect_backup_type_get (subject body : str) (result : dict) (k : str) :
  str_eqb (u "backup_type") k = false ->
  dict_get (detect_backup_type subject body result) k = dict_get result k.
Proof.
  intros H. unfold detect_backup_type. split_ifs;
    repeat (rewrite dict_get_set_other by assumption); reflexivity.
Qed.

Lemma detect_status_get (subject body : str) (result : dict) (k : str) :
  str_eqb (u "status") k = false ->
  dict_get (detect_status subject body result) k = dict_get result k.
Proof.
  intros H. unfold detect_status. split_ifs;
    repeat (rewrite dict_get_set_other by assumption); reflexivity.
Qed.

Lemma extract_source_nas_get (email : EmailMessage) (result : dict) (k : str) :
  str_eqb (u "source_nas") k = false ->
  dict_get (extract_source_nas email result) k = dict_get result k.
Proof.
  intros H. unfold extract_source_nas. destruct (nas_search _ _);
    repeat (rewrite dict_get_set_other by assumption); reflexivity.
Qed.

Lemma fallback_status (email : EmailMessage) :
  dict_get (_fallback_analysis email) (u "status") =
  Some (if any_kw success_keywords (lower (subject email)) (lower (body_text email))
        then PStr (u "success")
        else if any_kw failure_keywords (lower (subject email))
                  (lower (body_text email))
        then PStr (u "failure")
        else PNone).
Proof.
  unfold _fallback_analysis. cbv zeta.
  rewrite extract_source_nas_get by reflexivity.
  unfold detect_status. split_ifs; rewrite ?dict_get_set_same; try reflexivity.
  rewrite detect_backup_type_get, detect_notification_type_get; reflexivity.
Qed.

Lemma fallback_confidence (email : EmailMessage) :
  dict_get (_fallback_analysis email) (u "confidence") = Some (PInt 30).
Proof.
  unfold _fallback_analysis. cbv zeta.
  rewrite extract_source_nas_get, detect_status_get, detect_backup_type_get,
    detect_notification_type_get; reflexivity.
Qed.

Lemma dict_set_same_keys (d : dict) (k : str) (v : pyval) :
  map fst d = map fst initial_result ->
  In k (map fst initial_result) ->
  map fst (dict_set d k v) = map fst initial_result.
Proof.
  intros H Hin. rewrite dict_set_keys; [exact H|rewrite H; exact Hin].
Qed.

Ltac in_keys := simpl; repeat ((left; reflexivity) || right).

Ltac keep_keys stage :=
  intros H; unfold stage; split_ifs;
  repeat (apply dict_set_same_keys; [|in_keys]); exact H.

Lemma detect_notification_type_keys (subject body : str) (d : dict) :
  map fst d = map fst initial_result ->
  map fst (detect_notification_type subject body d) = map fst initial_result.
Proof. keep_keys detect_notification_type. Qed.

Lemma detect_backup_type_keys (subject body : str) (d : dict) :
  map fst d = map fst initial_result ->
  map fst (detect_backup_type subject body d) = map fst initial_result.
Proof. keep_keys detect_backup_type. Qed.

Lemma detect_status_keys (subject body : str) (d : dict) :
  map fst d = map fst initial_result ->
  map fst (detect_status subject body d) = map fst initial_result.
Proof. keep_keys detect_status. Qed.

Lemma extract_source_nas_keys (email : EmailMessage) (d : dict) :
  map fst d = map fst initial_result ->
  map fst (extract_source_nas email d) = map fst initial_result.
Proof.
  intros H. unfold extract_source_nas. destruct (nas_search _ _);
    repeat (apply dict_set_same_keys; [|in_keys]); exact H.
Qed.

(** The fallback result always has the eight keys of the initial result, in
    their order. *)
Lemma fallback_keys (email : EmailMessage) :
  map fst (_fallback_analysis email) = map fst initial_result.
Proof.
  unfold _fallback_analysis. cbv zeta.
  apply extract_source_nas_keys, detect_status_keys, detect_backup_type_keys,
    detect_notification_type_keys. reflexivity.
Qed.

End ClassifierFacts.

Module ClassifierClaims.

Import Classifier ClassifierFacts.
Open Scope N_scope.

(** The text [_parse_json_response] hands to [json.loads]. *)
Definition extracted (response_text : str) : str :=
  match search_object (strip response_text) with
  | Some m => m
  | None => strip response_text
  end.

Definition parse_error_result (e : str) : pyval :=
  PDict
    [(u "is_backup_notification", PBool false);
     (u "notification_type", PStr (u "other"));
     (u "error_message", PStr (u "Erreur de parsing: " ++ e));
     (u "confidence", PInt 0)].

(** Two emails and two degraded oracles for the examples. *)
Definition email_success_and_failed : EmailMessage :=
  mkEmailMessage (u "<1@nas>") (u "Hyper Backup - NABO03 - success")
    (u "nas@example.org") (u "Backup done, 0 files failed") 0.

Definition email_echec : EmailMessage :=
  mkEmailMessage (u "<2@nas>") (u "Sauvegarde NABO03 : échec")
    (u "nas@example.org") (u "La tâche a échoué") 0.

Definition oracle_down : str -> oracle_outcome :=
  fun _ => OracleRaises (OtherError (u "timeout")).

Definition oracle_chatty : str -> oracle_outcome :=
  fun _ => OracleText (u "Sorry, I cannot analyse this e-mail.").

Definition loads_rejects : str -> result pyval :=
  fun _ => Raise (JSONDecodeError (u "Expecting value: line 1 column 1 (char 0)")).

Definition no_isoformat : Z -> str := fun _ => u "1970-01-01T00:00:00".

(** C8, as stated, fails twice.  With the oracle raising, an email whose body
    contains "failed" and whose subject contains "success" gets the status
    success from the fallback.  With the oracle answering a text that is no
    JSON, there is no fallback at all: an email whose subject contains
    "échec" gets a result without status, of confidence 0. *)
Lemma fallback_status_not_always_failure :
  str_in (u "failed") (body_text email_success_and_failed) = true
  /\ (exists d,
        analyze_email loads_rejects oracle_down oracle_down no_isoformat
          (u "claude") email_success_and_failed = Ok (PDict d)
        /\ dict_get d (u "status") = Some (PStr (u "success"))
        /\ dict_get d (u "confidence") = Some (PInt 30))
  /\ str_in (u "échec") (subject email_echec) = true
  /\ (exists d,
        analyze_email loads_rejects oracle_chatty oracle_chatty no_isoformat
          (u "claude") email_echec = Ok (PDict d)
        /\ dict_get d (u "status") = None
        /\ dict_get d (u "confidence") = Some (PInt 0)
        /\ PDict d <> PDict (_fallback_analysis email_echec)).
Proof.
  split; [reflexivity|]. split.
  - eexists. split; [reflexivity|]. split; reflexivity.
  - split; [reflexivity|]. eexists. split; [reflexivity|].
    split; [reflexivity|]. split; [reflexivity|]. discriminate.
Qed.

Section Degraded.

Variable json_loads : str -> result pyval.
Variable claude openai : str -> oracle_outcome.
Variable isoformat : Z -> str.
Variable provider : str.

Let classify := analyze_email json_loads claude openai isoformat provider.
Let try_block := analyze_try json_loads claude openai isoformat provider.

(** C8, amended: [analyze_email] always returns.  Whenever its [try] block
    raises (the oracle call raises, the provider is unknown, or [json.loads]
    raises something else than [JSONDecodeError]) the result is the fallback
    analysis: the eight keys, confidence 30, and for status "success" if the
    lower-cased subject or body contains a success keyword, else "failure" if
    it contains a failure keyword ("échec", "failed", ...), else null.  When
    the oracle answers a text that [json.loads] rejects with
    [JSONDecodeError], the result is not the fallback but the fixed payload
    of confidence 0 with the error message and no status. *)
Theorem classify_degrades_without_raising (email : EmailMessage) :
  (exists r, classify email = Ok r)
  /\ (forall e, try_block email = Raise e ->
        classify email = Ok (PDict (_fallback_analysis email)))
  /\ (forall oracle e,
        (provider = u "claude" /\ oracle = claude
         \/ provider = u "openai" /\ oracle = openai) ->
        oracle (user_content isoformat email) = OracleRaises e ->
        classify email = Ok (PDict (_fallback_analysis email)))
  /\ map fst (_fallback_analysis email) = map fst initial_result
  /\ dict_get (_fallback_analysis email) (u "confidence") = Some (PInt 30)
  /\ dict_get (_fallback_analysis email) (u "status") =
       Some (if any_kw success_keywords (lower (subject email))
                  (lower (body_text email))
             then PStr (u "success")
             else if any_kw failure_keywords (lower (subject email))
                       (lower (body_text email))
             then PStr (u "failure")
             else PNone)
  /\ (forall kw,
        In kw failure_keywords ->
        str_in kw (subject email) = true \/ str_in kw (body_text email) = true ->
        any_kw success_keywords (lower (subject email)) (lower (body_text email))
          = false ->
        dict_get (_fallback_analysis email) (u "status")
          = Some (PStr (u "failure")))
  /\ (forall oracle response_text msg,
        (provider = u "claude" /\ oracle = claude
         \/ provider = u "openai" /\ oracle = openai) ->
        oracle (user_content isoformat email) = OracleText response_text ->
        json_loads (extracted response_text) = Raise (JSONDecodeError msg) ->
        classify email = Ok (parse_error_result msg)).
Proof.
  unfold classify, try_block.
  split; [|split; [|split; [|split; [|split; [|split; [|split]]]]]].
  - unfold analyze_email. destruct (analyze_try _ _ _ _ _ email); eexists; reflexivity.
  - intros e H. unfold analyze_email. rewrite H. reflexivity.
  - intros oracle e Hp Ho. unfold analyze_email, analyze_try, _analyze_with.
    destruct Hp as [[-> ->]|[-> ->]]; cbn [str_eqb]; rewrite Ho; reflexivity.
  - apply fallback_keys.
  - apply fallback_confidence.
  - apply fallback_status.
  - intros kw Hin Hc Hs. rewrite fallback_status, Hs.
    rewrite (any_kw_intro failure_keywords kw); [reflexivity|assumption|].
    apply contains_mentions; [right|]; assumption.
  - intros oracle t msg Hp Ho Hj.
    unfold analyze_email, analyze_try, _analyze_with, _parse_json_response.
    unfold extracted in Hj.
    destruct Hp as [[-> ->]|[-> ->]]; cbn [str_eqb]; rewrite Ho;
      destruct (search_object (strip t)); rewrite Hj; reflexivity.
Qed.

End Degraded.

Lemma classify_degrades_without_raising_witness :
  analyze_email loads_rejects oracle_down oracle_chatty no_isoformat
    (u "claude") email_echec
  = Ok (PDict (_fallback_analysis email_echec))
  /\ dict_get (_fallback_analysis email_echec) (u "status")
     = Some (PStr (u "failure"))
  /\ analyze_email loads_rejects oracle_down oracle_chatty no_isoformat
       (u "openai") email_echec
     = Ok (parse_error_result (u "Expecting value: line 1 column 1 (char 0)")).
Proof.
  pose proof (classify_degrades_without_raising loads_rejects oracle_down
                oracle_chatty no_isoformat (u "claude") email_echec)
    as (_ & _ & H3 & _ & _ & _ & H7 & _).
  pose proof (classify_degrades_without_raising loads_rejects oracle_down
                oracle_chatty no_isoformat (u "openai") email_echec)
    as (_ & _ & _ & _ & _ & _ & _ & H8).
  split; [|split].
  - apply (H3 oracle_down (OtherError (u "timeout"))); [left; split|]; reflexivity.
  - apply (H7 (u "échec")).
    + right. left. reflexivity.
    + left. reflexivity.
    + reflexivity.
  - apply (H8 oracle_chatty (u "Sorry, I cannot analyse this e-mail.")).
    + right. split; reflexivity.
    + reflexivity.
    + reflexivity.
Defined.

(** C10: in the fallback the success keywords are looked for first: an email
    whose subject or body contains a success keyword and a failure keyword
    gets the status "success" (with or without regard to case). *)
Theorem success_keywords_checked_first (email : EmailMessage) (ks kf : str) :
  In ks success_keywords ->
  In kf failure_keywords ->
  (str_in ks (subject email) = true \/ str_in ks (body_text email) = true
   \/ mentions ks email) ->
  (str_in kf (subject email) = true \/ str_in kf (body_text email) = true
   \/ mentions kf email) ->
  dict_get (_fallback_analysis email) (u "status") = Some (PStr (u "success"))
  /\ dict_get (_fallback_analysis email) (u "status") <> Some (PStr (u "failure")).
Proof.
  intros Hs Hf Cs Cf.
  assert (M : mentions ks email).
  { destruct Cs as [H|[H|H]]; [| |exact H];
      apply contains_mentions; auto. }
  assert (E : dict_get (_fallback_analysis email) (u "status")
              = Some (PStr (u "success"))).
  { rewrite fallback_status.
    rewrite (any_kw_intro success_keywords ks); [reflexivity|assumption|exact M]. }
  split; [exact E|]. rewrite E. discriminate.
Qed.

Lemma success_keywords_checked_first_witness :
  dict_get (_fallback_analysis email_success_and_failed) (u "status")
    = Some (PStr (u "success"))
  /\ dict_get (_fallback_analysis email_success_and_failed) (u "status")
     <> Some (PStr (u "failure")).
Proof.
  apply (@success_keywords_checked_first email_success_and_failed
           (u "success") (u "failed")).
  - right. right. left. reflexivity.
  - right. right. left. reflexivity.
  - left. reflexivity.
  - right. left. reflexivity.
Defined.

End ClassifierClaims.

(* ========================================================================= *)
(** * Further properties of the code *)

(* ------------------------------------------------------------------------- *)
(** ** Status engine, over time and over the store *)

Module StatusEngineExtras.

Import StatusEngine StatusEngineFacts.
Open Scope Z_scope.

(** The clock statuses in the order of their gravity. *)
Definition gravity (s : BackupStatus) : Z :=
  match s with
  | OK => 0
  | WARNING => 1
  | ALERT => 2
  | CRITICAL => 3
  | FAILED => 0
  | UNKNOWN => 0
  end.

Lemma clock_status_monotone (e1 e2 : Z) :
  e1 <= e2 -> gravity (clock_status e1) <= gravity (clock_status e2).
Proof.
  intros H. unfold clock_status, hours_le, us_per_hour.
  repeat match goal with
         | |- context [?a <=? ?b] => destruct (Z.leb_spec a b)
         end; simpl; lia.
Qed.

(** The recomputation of a backup that is not in maintenance and has a last
    success, in one equation. *)
Lemma update_backup_clock (now T : Z) (b : Backup) :
  truthy_bool (is_maintenance b) = false ->
  last_success_at b = Some T ->
  update_backup now b =
  (set_current_status b (clock_status (now - T)),
   if negb (status_eqb (current_status b) (clock_status (now - T)))
      && (status_eqb (clock_status (now - T)) ALERT
          || status_eqb (clock_status (now - T)) CRITICAL)
   then [missing_alert (set_current_status b (clock_status (now - T))) (now - T)]
   else []).
Proof.
  intros M L. unfold update_backup. rewrite M, L. cbv zeta.
  cbn [set_current_status current_status].
  destruct (negb _ && _); reflexivity.
Qed.



(** Hourly runs at the times [times], one after the other, on one backup that
    no event touches in between: the backup at the end, and the alerts
    raised. *)
Fixpoint recompute_at (times : list Z) (b : Backup) : Backup * list Alert :=
  match times with
  | [] => (b, [])
  | t :: rest =>
    let (b1, a1) := update_backup t b in
    let (b2, a2) := recompute_at rest b1 in
    (b2, a1 ++ a2)
  end.

Fixpoint nondecreasing (l : list Z) : Prop :=
  match l with
  | a :: (b :: _) as rest => a <= b /\ nondecreasing rest
  | _ => True
  end.

(** The alerts a status has behind it. *)
Definition alerts_behind (s : BackupStatus) : nat :=
  match s with
  | ALERT => 1
  | CRITICAL => 2
  | _ => 0
  end.

Lemma recompute_at_maintenance (times : list Z) (b : Backup) :
  truthy_bool (is_maintenance b) = true -> recompute_at times b = (b, []).
Proof.
  intros M. induction times as [|t rest IH]; [reflexivity|].
  cbn [recompute_at]. rewrite (update_backup_maintenance t b M), IH. reflexivity.
Qed.

Lemma recompute_at_no_success (times : list Z) (b : Backup) :
  truthy_bool (is_maintenance b) = false ->
  last_success_at b = None ->
  snd (recompute_at times b) = [].
Proof.
  revert b. induction times as [|t rest IH]; intros b M L; [reflexivity|].
  cbn [recompute_at]. unfold update_backup. rewrite M, L.
  specialize (IH (set_current_status b UNKNOWN) M L).
  destruct (recompute_at rest (set_current_status b UNKNOWN)). exact IH.
Qed.

Lemma recompute_at_settled (times : list Z) (t0 T : Z) (b : Backup) :
  truthy_bool (is_maintenance b) = false ->
  last_success_at b = Some T ->
  current_status b = clock_status (t0 - T) ->
  nondecreasing (t0 :: times) ->
  (List.length (snd (recompute_at times b)) + alerts_behind (current_status b)
   <= 2)%nat.
Proof.
  revert t0 b. induction times as [|t rest IH]; intros t0 b M L S N.
  - simpl. destruct (current_status b); simpl; lia.
  - cbn [recompute_at]. rewrite (update_backup_clock t b M L).
    destruct N as [Ht N].
    specialize (IH t (set_current_status b (clock_status (t - T))) M L eq_refl N).
    cbn [current_status set_current_status] in IH.
    destruct (recompute_at rest (set_current_status b (clock_status (t - T))))
      as [b2 a2]. cbn [snd] in *.
    pose proof (clock_status_monotone (e1 := t0 - T) (e2 := t - T)) as Mono.
    rewrite S. rewrite length_app.
    destruct (clock_status (t0 - T)), (clock_status (t - T));
      simpl in *; lia.
Qed.

(** X2: over any series of recomputations at non-decreasing times with no
    event in between, one backup gets at most two alerts, whatever its status
    at the start. *)
Theorem at_most_two_alerts_between_events (times : list Z) (b : Backup) :
  nondecreasing times ->
  (List.length (snd (recompute_at times b)) <= 2)%nat.
Proof.
  intros N. destruct (truthy_bool (is_maintenance b)) eqn:M.
  { rewrite (recompute_at_maintenance times b M). simpl. lia. }
  destruct (last_success_at b) as [T|] eqn:L.
  2:{ rewrite (recompute_at_no_success times b M L). simpl. lia. }
  destruct times as [|t rest]; [simpl; lia|].
  cbn [recompute_at]. rewrite (update_backup_clock t b M L).
  pose proof (@recompute_at_settled rest t T
                (set_current_status b (clock_status (t - T))) M L eq_refl N) as H.
  cbn [current_status set_current_status] in H.
  destruct (recompute_at rest (set_current_status b (clock_status (t - T))))
    as [b2 a2]. cbn [snd] in *. rewrite length_app.
  destruct (current_status b), (clock_status (t - T)); simpl in *; lia.
Qed.

Lemma at_most_two_alerts_between_events_witness :
  le (List.length
        (snd (recompute_at [hours 30; hours 50; hours 60; hours 80; hours 90]
                (sample_backup OK (Some 0) (Some false) None)))) 2.
Proof.
  apply at_most_two_alerts_between_events. vm_compute. intuition discriminate.
Defined.

Definition is_grave (s : str) : Prop := s = u "alert" \/ s = u "critical".

(** X3: the hourly job touches nothing but the status of backups and the list
    of alerts.  Clients, events and keys stay; the backups keep their number,
    their order and every field but the status; a backup that is inactive
    (or whose flag is null) or in maintenance stays as it is; the alerts
    already there stay, and each alert added is a [backup_missing] of
    severity alert or critical for an active backup of the store. *)
Theorem hourly_job_frame (now : Z) (db : DB) :
  let db' := _update_backup_statuses now db in
  clients db' = clients db
  /\ events db' = events db
  /\ next_client_id db' = next_client_id db
  /\ next_backup_id db' = next_backup_id db
  /\ next_event_id db' = next_event_id db
  /\ List.length (backups db') = List.length (backups db)
  /\ (forall i b, nth_error (backups db) i = Some b ->
        exists b',
          nth_error (backups db') i = Some b'
          /\ b' = set_current_status b (current_status b')
          /\ (selected b = false \/ truthy_bool (is_maintenance b) = true ->
                b' = b))
  /\ (exists added,
        alerts db' = alerts db ++ added
        /\ forall a, In a added ->
             alert_type a = u "backup_missing"
             /\ is_grave (severity a)
             /\ exists b,
                  In b (backups db) /\ selected b = true
                  /\ alert_backup_id a = backup_id b
                  /\ alert_client_id a = backup_client_id b).
Proof.
  cbv zeta.
  assert (F : clients (_update_backup_statuses now db) = clients db
              /\ events (_update_backup_statuses now db) = events db
              /\ next_client_id (_update_backup_statuses now db) = next_client_id db
              /\ next_backup_id (_update_backup_statuses now db) = next_backup_id db
              /\ next_event_id (_update_backup_statuses now db) = next_event_id db).
  { unfold _update_backup_statuses.
    destruct (update_rows now (backups db)); repeat split. }
  destruct F as (F1 & F2 & F3 & F4 & F5).
  repeat (split; [assumption|]).
  split; [rewrite job_backups; apply length_map|]. split.
  - intros i b Hn. rewrite job_backups, nth_error_map, Hn. cbn [option_map].
    eexists. split; [reflexivity|]. split.
    + destruct (selected b); [apply update_backup_fields|destruct b; reflexivity].
    + intros [H|H]; [rewrite H; reflexivity|].
      rewrite (update_backup_maintenance now b H). destruct (selected b); reflexivity.
  - eexists. split; [apply job_alerts|].
    intros a Ha. apply in_flat_map in Ha as (b & Hb & Ha).
    destruct (selected b) eqn:S; [|contradiction].
    rewrite update_backup_alerts in Ha.
    destruct (last_success_at b) as [T|]; [|contradiction]. cbv zeta in Ha.
    destruct (negb (truthy_bool (is_maintenance b))); [|contradiction].
    cbn [andb] in Ha.
    destruct (status_eqb (current_status b) _); [contradiction|]. cbn [negb andb] in Ha.
    pose proof (update_backup_fields now b) as Fb. cbv zeta in Fb.
    destruct (status_eqb _ ALERT) eqn:EA.
    + destruct Ha as [<-|[]]. apply status_eqb_spec in EA.
      unfold missing_alert. cbn [alert_type severity alert_backup_id alert_client_id].
      split; [reflexivity|]. split; [left; rewrite EA; reflexivity|].
      exists b. rewrite Fb. repeat split; assumption.
    + destruct (status_eqb _ CRITICAL) eqn:EC; [|contradiction].
      destruct Ha as [<-|[]]. apply status_eqb_spec in EC.
      unfold missing_alert. cbn [alert_type severity alert_backup_id alert_client_id].
      split; [reflexivity|]. split; [right; rewrite EC; reflexivity|].
      exists b. rewrite Fb. repeat split; assumption.
Qed.

End StatusEngineExtras.

(* ------------------------------------------------------------------------- *)
(** ** The recorder and the counters *)

Module RecorderExtras.

Import Resolver ResolverFacts StatusEngine StatusEngineFacts.
Open Scope Z_scope.

(** The events of kind [ty] the store holds for a backup. *)
Definition count_events (db : DB) (bid : Z) (ty : str) : Z :=
  Z.of_nat (List.length
    (filter (fun e => (event_backup_id e =? bid) && col_eq (event_type e) ty)
       (events db))).

(** The counters of a backup agree with the events of the store. *)
Definition counters_match (db : DB) (b : Backup) : Prop :=
  or0 (total_success_count b) = count_events db (backup_id b) (u "success")
  /\ or0 (total_failure_count b) = count_events db (backup_id b) (u "failure").

Lemma count_events_recorded now db backup email analysis ty :
  count_events (recorded_db now db backup email analysis) (backup_id backup) ty
  = count_events db (backup_id backup) ty
    + (if str_eqb (event_type_of analysis) ty then 1 else 0).
Proof.
  unfold count_events. cbn [recorded_db events]. rewrite filter_app, length_app.
  cbn [filter new_event event_backup_id event_type col_eq].
  rewrite Z.eqb_refl. cbn [andb].
  destruct (str_eqb (event_type_of analysis) ty); simpl; lia.
Qed.

Lemma event_type_of_kinds (analysis : Analysis) :
  event_type_of analysis = u "success"
  \/ event_type_of analysis = u "failure"
  \/ event_type_of analysis = u "warning"
  \/ event_type_of analysis = u "unknown".
Proof.
  unfold event_type_of. cbv zeta.
  destruct (str_mem _ _) eqn:E; [|tauto].
  unfold str_mem in E. cbn [existsb] in E.
  repeat (apply orb_true_iff in E as [E|E]);
    try discriminate; apply str_eqb_spec in E; rewrite E; tauto.
Qed.

Ltac eval_str_eqb :=
  repeat match goal with
         | |- context [str_eqb (u ?a) (u ?b)] =>
           let v := eval vm_compute in (str_eqb (u a) (u b)) in
           change (str_eqb (u a) (u b)) with v
         end.

(** X4: the recorder keeps the counters in step with the events: if the
    success and failure counters of a backup equal the numbers of success and
    failure events the store holds for it (a null counter counts as 0), they
    still do after any recording, be the event new or already there. *)
Theorem counters_follow_events
    (now : Z) (db db1 : DB) (backup b1 : Backup) (email : Email)
    (analysis : Analysis) (ev : BackupEvent) (created : bool) :
  counters_match db backup ->
  create_backup_event now db backup email analysis = Ok (db1, b1, ev, created) ->
  counters_match db1 b1.
Proof.
  intros [Cs Cf].
  destruct (existing_events db backup email) as [|e [|e2 r]] eqn:E.
  - rewrite (create_new now db backup email analysis E).
    intros H; injection H as <- <- <- <-.
    unfold counters_match. rewrite recorded_backup_id, !count_events_recorded.
    rewrite <- Cs, <- Cf. unfold recorded_backup.
    destruct (event_type_of_kinds analysis) as [K|[K|[K|K]]]; rewrite K;
      eval_str_eqb;
      cbn [set_last_event_at set_current_status set_total_success_count
           set_total_failure_count set_last_success_at set_last_failure_at
           total_success_count total_failure_count or0];
      split; lia.
  - rewrite (create_existing now db backup email analysis E).
    intros H; injection H as <- <- <- <-. split; assumption.
  - rewrite create_many; [discriminate|]. rewrite E. simpl. lia.
Qed.

Lemma counters_follow_events_witness :
  counters_match
    (recorded_db 0 (mkDB [] [ResolverClaims.tracked_backup None] [] [] 2 2 1)
       (set_total_success_count (ResolverClaims.tracked_backup None) None)
       (mkEmail (Some 9) None (Some 10800000000))
       (nabo_signal (Some (Some (u "success"))) None None None))
    (recorded_backup
       (set_total_success_count (ResolverClaims.tracked_backup None) None)
       (mkEmail (Some 9) None (Some 10800000000))
       (nabo_signal (Some (Some (u "success"))) None None None)).
Proof.
  eapply counters_follow_events with
    (now := 0) (db := mkDB [] [ResolverClaims.tracked_backup None] [] [] 2 2 1)
    (backup := set_total_success_count (ResolverClaims.tracked_backup None) None)
    (email := mkEmail (Some 9) None (Some 10800000000))
    (analysis := nabo_signal (Some (Some (u "success"))) None None None)
    (created := true).
  - split; reflexivity.
  - reflexivity.
Defined.



(** X6: every event the recorder creates is of one of the four kinds success,
    failure, warning, unknown; and when the payload's status is anything but
    "success" or "failure" (a warning, null, an empty or unknown word), the
    recording changes nothing of the backup but [last_event_at]: status,
    counters and the times of last success and failure stay. *)
Theorem other_statuses_leave_aggregates
    (now : Z) (db db1 : DB) (backup b1 : Backup) (email : Email)
    (analysis : Analysis) (ev : BackupEvent) :
  create_backup_event now db backup email analysis = Ok (db1, b1, ev, true) ->
  (exists t,
     event_type ev = Some t
     /\ (t = u "success" \/ t = u "failure" \/ t = u "warning" \/ t = u "unknown")
     /\ (t = u "success" <-> get_status analysis = Some (u "success"))
     /\ (t = u "failure" <-> get_status analysis = Some (u "failure")))
  /\ (get_status analysis <> Some (u "success") ->
      get_status analysis <> Some (u "failure") ->
      b1 = set_last_event_at backup (received_at email)).
Proof.
  assert (S : forall w, w = u "success" \/ w = u "failure" ->
            (event_type_of analysis = w <-> get_status analysis = Some w)).
  { intros w Hw. unfold event_type_of. cbv zeta.
    destruct (get_status analysis) as [[|c s]|] eqn:G; cbn [str_or].
    - destruct Hw as [-> | ->]; split; discriminate.
    - destruct (str_mem (c :: s) _) eqn:M.
      + split; [intros ->; reflexivity|intros H; injection H as <-; reflexivity].
      + split.
        * destruct Hw as [-> | ->]; discriminate.
        * intros H; injection H as H. rewrite H in M.
          destruct Hw as [-> | ->]; discriminate.
    - destruct Hw as [-> | ->]; split; discriminate. }
  destruct (existing_events db backup email) as [|e [|e2 r]] eqn:E.
  - rewrite (create_new now db backup email analysis E).
    intros H; injection H as <- <- <-. split.
    + exists (event_type_of analysis). split; [reflexivity|].
      split; [apply event_type_of_kinds|].
      split; apply S; [left|right]; reflexivity.
    + intros N1 N2. unfold recorded_backup.
      destruct (str_eqb (event_type_of analysis) (u "success")) eqn:E1.
      { apply str_eqb_spec in E1. apply S in E1; [contradiction|left; reflexivity]. }
      destruct (str_eqb (event_type_of analysis) (u "failure")) eqn:E2.
      { apply str_eqb_spec in E2. apply S in E2; [contradiction|right; reflexivity]. }
      reflexivity.
  - rewrite (create_existing now db backup email analysis E). discriminate.
  - rewrite create_many; [discriminate|]. rewrite E. simpl. lia.
Qed.

Lemma other_statuses_leave_aggregates_witness :
  recorded_backup (ResolverClaims.tracked_backup (Some 5))
    (mkEmail (Some 9) None (Some 10800000000))
    (nabo_signal (Some (Some (u "warning"))) None None None)
  = set_last_event_at (ResolverClaims.tracked_backup (Some 5)) (Some 10800000000).
Proof.
  eapply other_statuses_leave_aggregates with
    (now := 0) (db := mkDB [] [ResolverClaims.tracked_backup (Some 5)] [] [] 2 2 1)
    (backup := ResolverClaims.tracked_backup (Some 5))
    (email := mkEmail (Some 9) None (Some 10800000000))
    (analysis := nabo_signal (Some (Some (u "warning"))) None None None);
    [reflexivity|discriminate|discriminate].
Defined.

End RecorderExtras.

(* ------------------------------------------------------------------------- *)
(** ** What the lookups match *)

Unset Implicit Arguments.

Module LookupExtras.

Import Resolver ResolverFacts.
Open Scope N_scope.

(** A code point that [LIKE] takes literally. *)
Definition literal_cp (c : N) : bool :=
  negb (c =? 37) && negb (c =? 95) && negb (c =? 92).

Lemma like_any (s : str) : like [37] s = true.
Proof.
  cbn [like N.eqb Pos.eqb].
  induction s as [|x s IH]; [reflexivity|]. cbn [orb]. exact IH.
Qed.

Lemma like_literal_cons (c : N) (pat s : str) :
  literal_cp c = true ->
  like (c :: pat) s =
  match s with
  | [] => false
  | x :: s' => (x =? c) && like pat s'
  end.
Proof.
  unfold literal_cp. rewrite !andb_true_iff, !negb_true_iff.
  intros [[H1 H2] H3]. cbn [like]. rewrite H1, H2, H3. reflexivity.
Qed.

Lemma like_literal_prefix (p s : str) :
  forallb literal_cp p = true ->
  like (p ++ [37]) s = startswith p s.
Proof.
  revert s. induction p as [|c p IH]; intros s H.
  - cbn [app startswith]. apply like_any.
  - cbn [forallb] in H. apply andb_true_iff in H as [Hc Hp].
    cbn [app]. rewrite (like_literal_cons c _ _ Hc).
    destruct s as [|x s]; [reflexivity|].
    cbn [startswith]. rewrite IH by assumption. rewrite (N.eqb_sym x c). reflexivity.
Qed.

Lemma like_contains (p s : str) :
  forallb literal_cp p = true ->
  like (37 :: p ++ [37]) s = str_in p s.
Proof.
  intros H. cbn [like N.eqb Pos.eqb].
  induction s as [|x s IH].
  - cbn [str_in]. rewrite like_literal_prefix by assumption. reflexivity.
  - cbn [str_in]. rewrite like_literal_prefix by assumption. rewrite IH. reflexivity.
Qed.

Lemma lower_literal (p : str) :
  forallb literal_cp p = true -> forallb literal_cp (lower p) = true.
Proof.
  induction p as [|c p IH]; [reflexivity|].
  cbn [forallb lower map]. rewrite !andb_true_iff. intros [Hc Hp].
  split; [|apply IH; assumption].
  revert Hc. unfold literal_cp, lower_cp.
  rewrite !andb_true_iff, !negb_true_iff, !N.eqb_neq. intros [[H1 H2] H3].
  destruct ((65 <=? c) && (c <=? 90)) eqn:A.
  - apply andb_true_iff in A as [A1 A2]. apply N.leb_le in A1, A2.
    repeat split; lia.
  - destruct ((192 <=? c) && (c <=? 222) && negb (c =? 215)) eqn:B.
    + apply andb_true_iff in B as [B _]. apply andb_true_iff in B as [B1 B2].
      apply N.leb_le in B1, B2. repeat split; lia.
    + repeat split; assumption.
Qed.

(** X7: for a text [p] without [%], [_] and backslash, [column ILIKE '%p%']
    is the containment of [p] in the column without regard to case.  So the
    name filter of the backup lookup accepts every backup whose name contains
    the task name in any case, and the filter alone does not tell two
    backups apart when the name of one contains the task name of the
    other. *)
Theorem ilike_is_caseless_containment (p s : str) :
  forallb literal_cp p = true ->
  ilike s (u "%" ++ p ++ u "%") = str_in (lower p) (lower s).
Proof.
  intros H. unfold ilike.
  change (u "%") with [37]. unfold lower at 1.
  rewrite !map_app. cbn [map app].
  change (lower_cp 37) with 37. fold (lower p).
  apply (like_contains (lower p) (lower s)). apply lower_literal; assumption.
Qed.

Lemma ilike_is_caseless_containment_witness :
  ilike (u "NABO03 - Daily Full") (u "%" ++ u "daily" ++ u "%")
  = str_in (lower (u "daily")) (lower (u "NABO03 - Daily Full")).
Proof. apply ilike_is_caseless_containment. reflexivity. Defined.

(** *** The lookup by identifier *)

(** A code point that [json.dumps] writes as it is and [LIKE] takes
    literally: printable ASCII but the double quote, the backslash, [%]
    and [_]. *)
Definition plain_cp (c : N) : bool :=
  (32 <=? c) && (c <=? 126)
  && negb (c =? 34) && negb (c =? 92) && negb (c =? 37) && negb (c =? 95).

Lemma plain_cp_escape (c : N) : plain_cp c = true -> json_escape_cp c = [c].
Proof.
  unfold plain_cp, json_escape_cp.
  rewrite !andb_true_iff, !negb_true_iff. intros [[[[[H1 H2] H3] H4] _] _].
  rewrite H3, H4. apply N.leb_le in H1 as L1.
  repeat match goal with
         | |- context [c =? ?k] =>
           destruct (N.eqb_spec c k); [lia|]
         end.
  rewrite H1, H2. reflexivity.
Qed.

Lemma plain_cp_literal (c : N) : plain_cp c = true -> literal_cp c = true.
Proof.
  unfold plain_cp, literal_cp. rewrite !andb_true_iff. tauto.
Qed.

Lemma plain_literal_all (s : str) :
  forallb plain_cp s = true -> forallb literal_cp s = true.
Proof.
  induction s as [|c s IH]; [reflexivity|]. cbn [forallb].
  rewrite !andb_true_iff. intros [Hc Hs].
  split; [apply plain_cp_literal; assumption|apply IH; assumption].
Qed.

Lemma json_dumps_plain (s : str) :
  forallb plain_cp s = true -> json_dumps_str s = [34] ++ s ++ [34].
Proof.
  intros H. unfold json_dumps_str. do 2 f_equal.
  induction s as [|c s IH]; [reflexivity|].
  cbn [forallb] in H. apply andb_true_iff in H as [Hc Hs].
  cbn [flat_map]. rewrite (plain_cp_escape c Hc), IH by assumption. reflexivity.
Qed.

Lemma startswith_app (p s : str) : startswith p (p ++ s) = true.
Proof.
  induction p as [|c p IH]; [reflexivity|].
  cbn [app startswith]. rewrite N.eqb_refl. exact IH.
Qed.

Lemma str_in_middle (pre p post : str) : str_in p (pre ++ p ++ post) = true.
Proof.
  induction pre as [|c pre IH].
  - cbn [app]. destruct (p ++ post) eqn:E; cbn [str_in]; rewrite <- E;
      rewrite startswith_app; reflexivity.
  - cbn [app str_in]. rewrite IH. apply orb_true_r.
Qed.

Lemma join_middle (sep : str) (f : str -> str) (l : list str) (x : str) :
  In x l -> exists pre post, join sep (map f l) = pre ++ f x ++ post.
Proof.
  induction l as [|y l IH]; [contradiction|].
  intros [->|H].
  - destruct l as [|z l].
    + exists [], []. cbn [map join app]. rewrite app_nil_r. reflexivity.
    + exists [], (sep ++ join sep (map f (z :: l))). reflexivity.
  - destruct (IH H) as (pre & post & E).
    destruct l as [|z l]; [contradiction|].
    exists (f y ++ sep ++ pre), post.
    change (join sep (map f (y :: z :: l)))
      with (f y ++ sep ++ join sep (map f (z :: l))).
    rewrite E, <- !app_assoc. reflexivity.
Qed.

(** The test of the second lookup of [get_or_create_client]. *)
Definition lists_identifier (c : Client) (nas_identifier : str) : bool :=
  ilike (json_text (nas_identifiers c))
    (u "%" ++ [34] ++ upper nas_identifier ++ [34] ++ u "%").

Lemma listed_identifier_matches (c : Client) (l : list str) (nas_identifier : str) :
  nas_identifiers c = Some l ->
  In (upper nas_identifier) l ->
  forallb plain_cp (upper nas_identifier) = true ->
  lists_identifier c nas_identifier = true.
Proof.
  intros Hl Hin Hp. unfold lists_identifier.
  replace ([34] ++ upper nas_identifier ++ [34] ++ u "%")
    with (([34] ++ upper nas_identifier ++ [34]) ++ u "%")
    by (rewrite <- !app_assoc; reflexivity).
  rewrite ilike_is_caseless_containment.
  2:{ cbn [app forallb]. change (literal_cp 34) with true. cbn [andb].
      rewrite forallb_app, (plain_literal_all _ Hp). reflexivity. }
  apply str_in_map. rewrite Hl. unfold json_text.
  destruct (join_middle (u ", ") json_dumps_str l _ Hin) as (pre & post & E).
  rewrite E, (json_dumps_plain _ Hp).
  replace ([91] ++ (pre ++ ([34] ++ upper nas_identifier ++ [34]) ++ post) ++ [93])
    with (([91] ++ pre) ++ ([34] ++ upper nas_identifier ++ [34]) ++ (post ++ [93]))
    by (rewrite <- !app_assoc; reflexivity).
  apply str_in_middle.
Qed.

Lemma filter_single {A : Type} (f : A -> bool) (before after : list A) (x : A) :
  (forall y, In y (before ++ after) -> f y = false) ->
  f x = true ->
  filter f (before ++ x :: after) = [x].
Proof.
  intros Hn Hx.
  assert (N : forall l, (forall y, In y l -> f y = false) -> filter f l = []).
  { induction l as [|y l IH]; [reflexivity|]. intros H. cbn [filter].
    rewrite (H y) by (left; reflexivity). apply IH. intros z Hz. apply H. right. exact Hz. }
  rewrite filter_app. cbn [filter]. rewrite Hx.
  rewrite !N; [reflexivity| |]; intros y Hy; apply Hn, in_or_app; tauto.
Qed.

Lemma filter_none {A : Type} (f : A -> bool) (l : list A) :
  (forall y, In y l -> f y = false) -> filter f l = [].
Proof.
  induction l as [|y l IH]; [reflexivity|]. intros H. cbn [filter].
  rewrite (H y) by (left; reflexivity). apply IH. intros z Hz. apply H. right. exact Hz.
Qed.

(** X8: a client is found again by an identifier it lists.  When no client
    has the prefix of the identifier for short name, and one client lists
    the upper-cased identifier (made of printable ASCII without double
    quote, backslash, [%] and [_]) while no other client's identifiers
    match, [get_or_create_client] returns that client, unchanged, with
    created = false. *)
Theorem client_found_by_listed_identifier
    (db : DB) (before after : list Client) (c : Client) (l : list str)
    (nas_identifier : str) :
  clients db = before ++ c :: after ->
  (forall c', In c' (before ++ c :: after) ->
     str_eqb (short_name c') (client_prefix nas_identifier) = false) ->
  (forall c', In c' (before ++ after) -> lists_identifier c' nas_identifier = false) ->
  nas_identifiers c = Some l ->
  In (upper nas_identifier) l ->
  forallb plain_cp (upper nas_identifier) = true ->
  get_or_create_client db nas_identifier = Ok (update_client db c, c, false).
Proof.
  intros Hc Hs Hn Hl Hin Hp.
  unfold get_or_create_client. cbv zeta. rewrite Hc.
  rewrite (filter_none _ _ Hs). cbn [scalar_one_or_none bind].
  fold (lists_identifier).
  change (fun c0 : Client =>
            ilike (json_text (nas_identifiers c0))
              (u "%" ++ [34] ++ upper nas_identifier ++ [34] ++ u "%"))
    with (fun c0 => lists_identifier c0 nas_identifier).
  rewrite (filter_single (fun c0 => lists_identifier c0 nas_identifier) before after c Hn
             (listed_identifier_matches c l nas_identifier Hl Hin Hp)).
  cbn [scalar_one_or_none bind]. rewrite Hl.
  replace (str_mem (upper nas_identifier) l) with true.
  2:{ symmetry. unfold str_mem. apply existsb_exists.
      exists (upper nas_identifier). split; [assumption|apply str_eqb_refl]. }
  cbn [negb].
  replace (set_nas_identifiers c (Some l)) with c
    by (destruct c; cbn in Hl |- *; rewrite Hl; reflexivity).
  reflexivity.
Qed.

Definition srv_client : Client :=
  mkClient 4 (u "Cabinet Martin") (u "MARTIN") None
    (Some [u "SRV-PARIS-01"; u "DS218"]) (Some true).

Lemma client_found_by_listed_identifier_witness :
  get_or_create_client (mkDB [nabo_client 1; srv_client] [] [] [] 5 1 1) (u "ds218")
  = Ok (update_client (mkDB [nabo_client 1; srv_client] [] [] [] 5 1 1) srv_client,
        srv_client, false).
Proof.
  apply (client_found_by_listed_identifier
           (mkDB [nabo_client 1; srv_client] [] [] [] 5 1 1)
           [nabo_client 1] [] srv_client [u "SRV-PARIS-01"; u "DS218"] (u "ds218")).
  - reflexivity.
  - intros c' [<-|[<-|[]]]; reflexivity.
  - intros c' [<-|[]]. reflexivity.
  - reflexivity.
  - right. left. reflexivity.
  - reflexivity.
Defined.

End LookupExtras.

(* ------------------------------------------------------------------------- *)
(** ** What resolution keeps *)

Module ResolutionExtras.

Import Resolver ResolverFacts.
Open Scope Z_scope.

(** The client [get_or_create_client] creates, and the client it returns
    when it found [c0]. *)
Definition new_client (db : DB) (nas_identifier : str) : Client :=
  mkClient (next_client_id db) (u "Client " ++ client_prefix nas_identifier)
    (client_prefix nas_identifier)
    (Some (u "Client cree automatiquement depuis l'analyse des emails"))
    (Some [upper nas_identifier]) (Some true).

Definition known_identifiers (c : Client) : list str :=
  match nas_identifiers c with
  | Some l => l
  | None => []
  end.

Definition joined (c0 : Client) (nas_identifier : str) : Client :=
  if negb (str_mem (upper nas_identifier) (known_identifiers c0))
  then set_nas_identifiers (set_nas_identifiers c0 (Some (known_identifiers c0)))
         (Some (known_identifiers c0 ++ [upper nas_identifier]))
  else set_nas_identifiers c0 (Some (known_identifiers c0)).

Lemma scalar_one_or_none_in {A : Type} (rows : list A) (x : A) :
  scalar_one_or_none rows = Ok (Some x) -> rows = [x].
Proof.
  destruct rows as [|y [|z r]]; simpl; intros H; try discriminate.
  injection H as ->. reflexivity.
Qed.

(** The two ways [get_or_create_client] returns. *)
Lemma get_or_create_client_cases (db db' : DB) (s : str) (c : Client) (created : bool) :
  get_or_create_client db s = Ok (db', c, created) ->
  (created = true
   /\ filter (fun x => str_eqb (short_name x) (client_prefix s)) (clients db) = []
   /\ c = new_client db s
   /\ db' = mkDB (clients db ++ [c]) (backups db) (events db) (alerts db)
              (next_client_id db + 1) (next_backup_id db) (next_event_id db))
  \/ (created = false
      /\ exists c0,
           In c0 (clients db)
           /\ (filter (fun x => str_eqb (short_name x) (client_prefix s)) (clients db)
               = [c0]
               \/ filter (fun x => str_eqb (short_name x) (client_prefix s))
                    (clients db) = [])
           /\ c = joined c0 s
           /\ db' = update_client db c).
Proof.
  unfold get_or_create_client. cbv zeta.
  set (byname := filter _ (clients db)). set (byid := filter _ (clients db)).
  assert (Found : forall c0,
            In c0 (clients db) ->
            (byname = [c0] \/ byname = []) ->
            Ok (update_client db (joined c0 s), joined c0 s, false)
            = Ok (db', c, created) ->
            created = false
            /\ exists c1, In c1 (clients db) /\ (byname = [c1] \/ byname = [])
                 /\ c = joined c1 s /\ db' = update_client db c).
  { intros c0 Hin Hby H. injection H as <- <- <-. split; [reflexivity|].
    exists c0. repeat split; assumption. }
  assert (Step : forall c0,
            match nas_identifiers c0 with
            | Some l => l
            | None => []
            end = known_identifiers c0) by reflexivity.
  destruct byname as [|x [|y r]] eqn:En; cbn [scalar_one_or_none bind].
  - destruct byid as [|x [|y r]] eqn:Ei; cbn [scalar_one_or_none bind].
    + unfold insert_client. intros H. injection H as <- <- <-. left.
      repeat split.
    + intros H. right. apply (Found x).
      * assert (Hx : In x byid) by (rewrite Ei; left; reflexivity).
        apply filter_In in Hx. tauto.
      * right. reflexivity.
      * rewrite <- H. unfold joined. rewrite Step.
        destruct (negb _); reflexivity.
    + discriminate.
  - intros H. right. apply (Found x).
    + assert (Hx : In x byname) by (rewrite En; left; reflexivity).
      apply filter_In in Hx. tauto.
    + left. reflexivity.
    + rewrite <- H. unfold joined. rewrite Step.
      destruct (negb _); reflexivity.
  - discriminate.
Qed.

(** X9: identifiers of one prefix gather on one client.  After an
    identifier made a client, any identifier with the same prefix (NABO04
    after NABO03, or NABO03 again) returns that client with created = false:
    same key and short name, and the new identifier added once to the list. *)
Theorem same_prefix_joins_client (db db1 : DB) (c1 : Client) (s1 s2 : str) :
  get_or_create_client db s1 = Ok (db1, c1, true) ->
  client_prefix s2 = client_prefix s1 ->
  exists c2,
    get_or_create_client db1 s2 = Ok (update_client db1 c2, c2, false)
    /\ client_id c2 = client_id c1
    /\ short_name c2 = client_prefix s1
    /\ nas_identifiers c2
       = Some (if str_eqb (upper s2) (upper s1)
               then [upper s1] else [upper s1; upper s2]).
Proof.
  intros H P.
  destruct (get_or_create_client_cases _ _ _ _ _ H) as [(_ & Hn & -> & ->)|(C & _)];
    [|discriminate].
  exists (joined (new_client db s1) s2).
  assert (J : joined (new_client db s1) s2
              = set_nas_identifiers (new_client db s1)
                  (Some (if str_eqb (upper s2) (upper s1)
                         then [upper s1] else [upper s1; upper s2]))).
  { unfold joined, known_identifiers, new_client. cbn [nas_identifiers].
    unfold str_mem. cbn [existsb]. rewrite orb_false_r.
    destruct (str_eqb (upper s2) (upper s1)); reflexivity. }
  split; [|rewrite J; repeat split].
  unfold get_or_create_client. cbv zeta. cbn [clients].
  rewrite P, filter_app, Hn. cbn [filter new_client short_name app].
  rewrite str_eqb_refl. cbn [scalar_one_or_none bind].
  fold (new_client db s1). unfold joined, known_identifiers.
  cbn [new_client nas_identifiers]. destruct (negb _); reflexivity.
Qed.

Lemma same_prefix_joins_client_witness :
  exists c2,
    get_or_create_client (mkDB [nabo_client 1] [] [] [] (1 + 1) 1 1) (u "nabo04")
    = Ok (update_client (mkDB [nabo_client 1] [] [] [] (1 + 1) 1 1) c2, c2, false)
    /\ client_id c2 = client_id (nabo_client 1)
    /\ short_name c2 = client_prefix (u "NABO03")
    /\ nas_identifiers c2
       = Some (if str_eqb (upper (u "nabo04")) (upper (u "NABO03"))
               then [upper (u "NABO03")]
               else [upper (u "NABO03"); upper (u "nabo04")]).
Proof.
  apply (same_prefix_joins_client (mkDB [] [] [] [] 1 1 1) _ _ (u "NABO03") (u "nabo04"));
    reflexivity.
Defined.

(** The clients of a store are well keyed: the keys are distinct and below
    the sequence, and the short names are distinct. *)
Definition clients_ok (db : DB) : Prop :=
  NoDup (map client_id (clients db))
  /\ (forall c, In c (clients db) -> client_id c < next_client_id db)
  /\ NoDup (map short_name (clients db)).

Lemma put_client_map (f : Client -> Z) (c : Client) (l : list Client) :
  (forall x, In x l -> client_id x = client_id c -> f c = f x) ->
  map f (put_client c l) = map f l.
Proof.
  intros H. unfold put_client. rewrite map_map. apply map_ext_in.
  intros x Hx. destruct (Z.eqb_spec (client_id x) (client_id c)); [|reflexivity].
  apply H; assumption.
Qed.

Lemma put_client_map_str (f : Client -> str) (c : Client) (l : list Client) :
  (forall x, In x l -> client_id x = client_id c -> f c = f x) ->
  map f (put_client c l) = map f l.
Proof.
  intros H. unfold put_client. rewrite map_map. apply map_ext_in.
  intros x Hx. destruct (Z.eqb_spec (client_id x) (client_id c)); [|reflexivity].
  apply H; assumption.
Qed.

Lemma NoDup_map_inj_on (l : list Client) (x y : Client) :
  NoDup (map client_id l) -> In x l -> In y l -> client_id x = client_id y -> x = y.
Proof.
  induction l as [|z l IH]; [contradiction|].
  cbn [map]. intros N Hx Hy E. inversion N as [|? ? Hz N']; subst.
  destruct Hx as [->|Hx], Hy as [->|Hy]; auto.
  - exfalso. apply Hz. rewrite E. apply in_map. assumption.
  - exfalso. apply Hz. rewrite <- E. apply in_map. assumption.
Qed.

Lemma joined_fields (c0 : Client) (s : str) :
  client_id (joined c0 s) = client_id c0
  /\ short_name (joined c0 s) = short_name c0
  /\ str_mem (upper s) (known_identifiers (joined c0 s)) = true
  /\ incl (known_identifiers c0) (known_identifiers (joined c0 s)).
Proof.
  unfold joined. destruct (str_mem (upper s) (known_identifiers c0)) eqn:M;
    cbn [negb]; unfold known_identifiers at 3 5; cbn [set_nas_identifiers
      nas_identifiers client_id short_name]; repeat split.
  - exact M.
  - apply incl_refl.
  - unfold str_mem. rewrite existsb_app. cbn [existsb].
    rewrite str_eqb_refl. rewrite orb_true_r. reflexivity.
  - apply incl_appl, incl_refl.
Qed.

(** X10: [get_or_create_client] keeps the store of clients well keyed (keys
    distinct and below the sequence, short names distinct), drops no client
    and no identifier, changes no short name, leaves backups and events
    alone, adds one client exactly when it says created, and the client it
    returns is in the store and lists the upper-cased identifier. *)
Theorem client_resolution_keeps_store
    (db db' : DB) (s : str) (c : Client) (created : bool) :
  clients_ok db ->
  get_or_create_client db s = Ok (db', c, created) ->
  clients_ok db'
  /\ In c (clients db')
  /\ str_mem (upper s) (known_identifiers c) = true
  /\ map client_id (clients db')
     = map client_id (clients db) ++ (if created then [client_id c] else [])
  /\ map short_name (clients db')
     = map short_name (clients db) ++ (if created then [client_prefix s] else [])
  /\ (forall x, In x (clients db) ->
        exists x', In x' (clients db')
                   /\ client_id x' = client_id x
                   /\ incl (known_identifiers x) (known_identifiers x'))
  /\ backups db' = backups db
  /\ events db' = events db.
Proof.
  intros (Kid & Kseq & Kname) H.
  destruct (get_or_create_client_cases _ _ _ _ _ H)
    as [(-> & Hn & -> & ->)|(-> & c0 & Hin & _ & -> & ->)]; unfold clients_ok.
  - cbn [clients backups events next_client_id].
    assert (Fresh : ~ In (next_client_id db) (map client_id (clients db))).
    { intros Hi. apply in_map_iff in Hi as (x & Hx & Hi).
      specialize (Kseq x Hi). lia. }
    assert (FreshName : ~ In (client_prefix s) (map short_name (clients db))).
    { intros Hi. apply in_map_iff in Hi as (x & Hx & Hi).
      assert (Hf : In x (filter (fun x => str_eqb (short_name x) (client_prefix s))
                           (clients db))).
      { apply filter_In. split; [assumption|]. rewrite Hx. apply str_eqb_refl. }
      rewrite Hn in Hf. contradiction. }
    split; [|split; [|split; [|split; [|split; [|split; [|split]]]]]].
    + split; [|split].
      * rewrite map_app. cbn [map new_client client_id].
        apply NoDup_app; [assumption|repeat constructor; intros []|].
        intros x Hx [<-|[]]. contradiction.
      * intros x Hx. apply in_app_or in Hx as [Hx|[<-|[]]].
        -- specialize (Kseq x Hx). lia.
        -- cbn [new_client client_id]. lia.
      * rewrite map_app. cbn [map new_client short_name].
        apply NoDup_app; [assumption|repeat constructor; intros []|].
        intros x Hx [<-|[]]. contradiction.
    + apply in_or_app. right. left. reflexivity.
    + unfold known_identifiers, new_client, str_mem. cbn [nas_identifiers existsb].
      rewrite str_eqb_refl. reflexivity.
    + rewrite map_app. reflexivity.
    + rewrite map_app. reflexivity.
    + intros x Hx. exists x. split; [apply in_or_app; left; assumption|].
      split; [reflexivity|apply incl_refl].
    + reflexivity.
    + reflexivity.
  - destruct (joined_fields c0 s) as (Jid & Jname & Jmem & Jincl).
    unfold update_client. cbn [clients backups events next_client_id].
    assert (Mid : map client_id (put_client (joined c0 s) (clients db))
                  = map client_id (clients db)).
    { apply put_client_map. intros x _ E. symmetry. exact E. }
    assert (Mname : map short_name (put_client (joined c0 s) (clients db))
                    = map short_name (clients db)).
    { apply put_client_map_str. intros x Hx E. rewrite Jname.
      rewrite Jid in E. f_equal. symmetry.
      apply (NoDup_map_inj_on (clients db)); assumption. }
    assert (Hput : In (joined c0 s) (put_client (joined c0 s) (clients db))).
    { unfold put_client. apply in_map_iff. exists c0.
      rewrite Jid, Z.eqb_refl. split; [reflexivity|assumption]. }
    split; [|split; [|split; [|split; [|split; [|split; [|split]]]]]].
    + split; [|split].
      * rewrite Mid. assumption.
      * intros x Hx. unfold put_client in Hx. apply in_map_iff in Hx as (y & Hy & Hyin).
        destruct (Z.eqb_spec (client_id y) (client_id (joined c0 s))).
        -- subst x. rewrite Jid. apply Kseq. assumption.
        -- subst x. apply Kseq. assumption.
      * rewrite Mname. assumption.
    + exact Hput.
    + exact Jmem.
    + rewrite Mid, app_nil_r. reflexivity.
    + rewrite Mname, app_nil_r. reflexivity.
    + intros x Hx.
      destruct (Z.eqb_spec (client_id x) (client_id c0)) as [E|E].
      * assert (x = c0) by (apply (NoDup_map_inj_on (clients db)); assumption).
        subst x. exists (joined c0 s). repeat split; assumption.
      * exists x. split; [|split; [reflexivity|apply incl_refl]].
        unfold put_client. apply in_map_iff. exists x. split; [|assumption].
        rewrite Jid. destruct (Z.eqb_spec (client_id x) (client_id c0));
          [contradiction|reflexivity].
    + reflexivity.
    + reflexivity.
Qed.

Lemma clients_ok_nabo : clients_ok (mkDB [nabo_client 1] [] [] [] 2 1 1).
Proof.
  split; [|split].
  - cbn. repeat constructor. intros [].
  - intros c [<-|[]]. cbn. lia.
  - cbn -[u]. repeat constructor. intros [].
Qed.

Lemma client_resolution_keeps_store_witness :
  clients_ok (update_client (mkDB [nabo_client 1] [] [] [] 2 1 1)
                (joined (nabo_client 1) (u "nabo04")))
  /\ In (joined (nabo_client 1) (u "nabo04"))
       (clients (update_client (mkDB [nabo_client 1] [] [] [] 2 1 1)
                   (joined (nabo_client 1) (u "nabo04")))).
Proof.
  pose proof (client_resolution_keeps_store
                (mkDB [nabo_client 1] [] [] [] 2 1 1)
                (update_client (mkDB [nabo_client 1] [] [] [] 2 1 1)
                   (joined (nabo_client 1) (u "nabo04")))
                (u "nabo04") (joined (nabo_client 1) (u "nabo04")) false
                clients_ok_nabo eq_refl) as (H1 & H2 & _).
  split; assumption.
Defined.

(** The fields [get_or_create_backup] reads off a payload. *)
Definition signal_source (analysis : Analysis) : str :=
  upper (str_or (a_source_nas analysis) (u "UNKNOWN")).

Definition signal_type (analysis : Analysis) : str :=
  str_or (a_backup_type analysis) (u "other").

Definition signal_name (analysis : Analysis) : str :=
  backup_name_of (signal_source analysis) (signal_type analysis)
    (str_or (a_task_name analysis) [])
    (match a_devices analysis with Some l => l | None => [] end).

Lemma get_or_create_backup_cases
    (db db' : DB) (client : Client) (analysis : Analysis) (b : Backup)
    (created : bool) :
  get_or_create_backup db client analysis = Ok (db', b, created) ->
  (created = true
   /\ ResolverClaims.signal_candidates db client analysis = []
   /\ backup_id b = next_backup_id db
   /\ backup_client_id b = client_id client
   /\ name b = signal_name analysis
   /\ backup_type b = Some (signal_type analysis)
   /\ source_nas b = Some (signal_source analysis)
   /\ current_status b = UNKNOWN
   /\ last_success_at b = None
   /\ total_success_count b = Some 0
   /\ total_failure_count b = Some 0
   /\ db' = mkDB (clients db) (backups db ++ [b]) (events db) (alerts db)
              (next_client_id db) (next_backup_id db + 1) (next_event_id db))
  \/ (created = false
      /\ ResolverClaims.signal_candidates db client analysis = [b]
      /\ db' = db).
Proof.
  unfold get_or_create_backup. cbv zeta.
  fold (ResolverClaims.signal_candidates db client analysis).
  destruct (ResolverClaims.signal_candidates db client analysis) as [|x [|y r]];
    cbn [scalar_one_or_none bind].
  - unfold insert_backup. intros H. injection H as <- <- <-. left.
    repeat split.
  - intros H. injection H as <- <- <-. right. repeat split.
  - discriminate.
Qed.

Lemma col_eq_some (c v : str) : col_eq (Some c) v = true <-> c = v.
Proof. apply str_eqb_spec. Qed.

(** X11: whatever [get_or_create_backup] returns, found or created, is a
    backup of the store that belongs to the client and has the signal's
    upper-cased source and its type; clients and events are untouched, and
    the same call again returns the same backup with created = false and
    changes nothing: a signal never makes a second backup. *)
Theorem backup_resolution_is_stable
    (db db' : DB) (client : Client) (analysis : Analysis) (b : Backup)
    (created : bool) :
  get_or_create_backup db client analysis = Ok (db', b, created) ->
  In b (backups db')
  /\ backup_client_id b = client_id client
  /\ source_nas b = Some (signal_source analysis)
  /\ backup_type b = Some (signal_type analysis)
  /\ clients db' = clients db
  /\ events db' = events db
  /\ backups db' = backups db ++ (if created then [b] else [])
  /\ get_or_create_backup db' client analysis = Ok (db', b, false).
Proof.
  intros H.
  destruct (get_or_create_backup_cases _ _ _ _ _ _ H)
    as [(-> & Hc & Hid & Hcl & Hname & Hty & Hsrc & _ & _ & _ & _ & ->)
       |(-> & Hc & ->)].
  - cbn [backups clients events].
    split; [apply in_or_app; right; left; reflexivity|].
    repeat (split; [assumption || reflexivity|]).
    unfold get_or_create_backup. cbv zeta.
    fold (ResolverClaims.signal_candidates
            (mkDB (clients db) (backups db ++ [b]) (events db) (alerts db)
               (next_client_id db) (next_backup_id db + 1) (next_event_id db))
            client analysis).
    unfold ResolverClaims.signal_candidates in Hc |- *. cbv zeta in Hc |- *.
    unfold candidate_backups in Hc |- *. cbn [backups].
    rewrite filter_app, Hc. cbn [filter app].
    rewrite Hcl, Z.eqb_refl, Hsrc, Hty.
    fold (signal_source analysis). fold (signal_type analysis).
    fold (signal_name analysis).
    rewrite (proj2 (col_eq_some _ _) eq_refl), (proj2 (col_eq_some _ _) eq_refl).
    rewrite Hname, str_eqb_refl. cbn [andb orb].
    destruct (str_or (a_task_name analysis) []); reflexivity.
  - assert (Hin : In b (ResolverClaims.signal_candidates db client analysis))
      by (rewrite Hc; left; reflexivity).
    unfold ResolverClaims.signal_candidates in Hin. cbv zeta in Hin.
    unfold candidate_backups in Hin. apply filter_In in Hin as [Hin Hp].
    apply andb_true_iff in Hp as [Hp _]. apply andb_true_iff in Hp as [Hp Hty].
    apply andb_true_iff in Hp as [Hcl Hsrc].
    apply Z.eqb_eq in Hcl.
    destruct (source_nas b) as [sn|] eqn:Es; [|discriminate].
    destruct (backup_type b) as [ty|] eqn:Et; [|discriminate].
    apply col_eq_some in Hsrc, Hty.
    split; [assumption|]. split; [assumption|].
    split; [rewrite Hsrc; reflexivity|]. split; [rewrite Hty; reflexivity|].
    split; [reflexivity|]. split; [reflexivity|].
    split; [rewrite app_nil_r; reflexivity|]. exact H.
Qed.

Lemma backup_resolution_is_stable_witness :
  get_or_create_backup
    (mkDB [nabo_client 1] ([] ++ [nabo_backup 1 1 None None]) [] [] 2 (1 + 1) 1)
    (nabo_client 1) (nabo_signal None None None None)
  = Ok (mkDB [nabo_client 1] ([] ++ [nabo_backup 1 1 None None]) [] [] 2 (1 + 1) 1,
        nabo_backup 1 1 None None, false).
Proof.
  pose proof (backup_resolution_is_stable
                (mkDB [nabo_client 1] [] [] [] 2 1 1)
                (mkDB [nabo_client 1] ([] ++ [nabo_backup 1 1 None None]) [] []
                   2 (1 + 1) 1)
                (nabo_client 1) (nabo_signal None None None None)
                (nabo_backup 1 1 None None) true eq_refl)
    as (_ & _ & _ & _ & _ & _ & _ & H).
  exact H.
Defined.

(** *** The prefix *)

Open Scope N_scope.






End ResolutionExtras.

(* ------------------------------------------------------------------------- *)
(** ** What the classifier extracts *)

Module ClassifierExtras.

Import Classifier ClassifierFacts.
Open Scope N_scope.

Lemma upto_last_close_none (s : str) :
  ~ In 125 s -> upto_last_close s = None.
Proof.
  induction s as [|c s IH]; [reflexivity|].
  intros H. cbn [upto_last_close]. rewrite IH.
  - destruct (N.eqb_spec c 125) as [->|]; [|reflexivity].
    exfalso. apply H. left. reflexivity.
  - intros Hin. apply H. right. exact Hin.
Qed.

Lemma upto_last_close_some (mid post : str) :
  ~ In 125 post -> upto_last_close (mid ++ 125 :: post) = Some (mid ++ [125]).
Proof.
  intros H. induction mid as [|c mid IH].
  - cbn [app upto_last_close]. rewrite (upto_last_close_none post H). reflexivity.
  - cbn [app upto_last_close]. rewrite IH. reflexivity.
Qed.

Lemma upto_last_close_inv (s p : str) :
  upto_last_close s = Some p ->
  exists mid post, s = mid ++ 125 :: post /\ p = mid ++ [125] /\ ~ In 125 post.
Proof.
  revert p. induction s as [|c s IH]; intros p; [discriminate|].
  cbn [upto_last_close]. destruct (upto_last_close s) as [q|] eqn:E.
  - intros H; injection H as <-.
    destruct (IH q eq_refl) as (mid & post & -> & -> & Hp).
    exists (c :: mid), post. repeat split. exact Hp.
  - destruct (N.eqb_spec c 125) as [->|]; [|discriminate].
    intros H; injection H as <-. exists [], s. repeat split.
    intros Hin. clear IH. induction s as [|d s IHs]; [contradiction|].
    cbn [upto_last_close] in E. destruct (upto_last_close s) eqn:E2; [discriminate|].
    destruct (N.eqb_spec d 125); [discriminate|].
    destruct Hin as [->|Hin]; [congruence|]. apply IHs; [reflexivity|exact Hin].
Qed.

Lemma search_object_skip (pre rest : str) :
  ~ In 123 pre ->
  search_object (pre ++ 123 :: rest) =
  match upto_last_close rest with
  | Some p => Some (123 :: p)
  | None => None
  end.
Proof.
  induction pre as [|c pre IH]; intros H.
  - reflexivity.
  - cbn [app search_object]. destruct (N.eqb_spec c 123) as [->|].
    + exfalso. apply H. left. reflexivity.
    + apply IH. intros Hin. apply H. right. exact Hin.
Qed.

Lemma search_object_no_open (s : str) : ~ In 123 s -> search_object s = None.
Proof.
  induction s as [|c s IH]; [reflexivity|]. intros H. cbn [search_object].
  destruct (N.eqb_spec c 123) as [->|]; [exfalso; apply H; left; reflexivity|].
  apply IH. intros Hin. apply H. right. exact Hin.
Qed.

Lemma first_open (s : str) :
  In 123 s -> exists pre rest, s = pre ++ 123 :: rest /\ ~ In 123 pre.
Proof.
  induction s as [|c s IH]; [contradiction|]. intros H.
  destruct (N.eqb_spec c 123) as [->|Hc].
  - exists [], s. split; [reflexivity|intros []].
  - destruct H as [H|H]; [congruence|].
    destruct (IH H) as (pre & rest & -> & Hp).
    exists (c :: pre), rest. split; [reflexivity|].
    intros [E|Hin]; [congruence|contradiction].
Qed.

(** X13: what is decoded of an answer of the oracle is the text from its
    first opening brace to its last closing brace, whatever surrounds it and
    whatever lies between (two objects in a row are taken as one text); when
    no closing brace follows the first opening brace, it is the whole
    stripped answer.  A value that [json.loads] decodes from that text is the
    result of [_parse_json_response]. *)
Theorem json_is_cut_from_first_to_last_brace (t : str) :
  (forall pre mid post,
     strip t = pre ++ 123 :: mid ++ 125 :: post ->
     ~ In 123 pre -> ~ In 125 post ->
     ClassifierClaims.extracted t = 123 :: mid ++ [125]
     /\ forall json_loads v,
          json_loads (123 :: mid ++ [125]) = Ok v ->
          _parse_json_response json_loads t = Ok v)
  /\ (forall m,
        search_object (strip t) = Some m ->
        exists pre mid post,
          strip t = pre ++ m ++ post
          /\ m = 123 :: mid ++ [125]
          /\ ~ In 123 pre /\ ~ In 125 post)
  /\ ((forall pre mid post, strip t <> pre ++ 123 :: mid ++ 125 :: post) ->
      ClassifierClaims.extracted t = strip t).
Proof.
  split; [|split].
  - intros pre mid post E Hpre Hpost.
    assert (S : search_object (strip t) = Some (123 :: mid ++ [125])).
    { rewrite E, (search_object_skip pre _ Hpre), (upto_last_close_some mid post Hpost).
      reflexivity. }
    split.
    + unfold ClassifierClaims.extracted. rewrite S. reflexivity.
    + intros json_loads v Hv. unfold _parse_json_response. cbv zeta.
      rewrite S, Hv. reflexivity.
  - intros m Hm.
    destruct (in_dec N.eq_dec 123 (strip t)) as [Hin|Hno].
    + destruct (first_open _ Hin) as (pre & rest & E & Hpre).
      rewrite E, (search_object_skip pre rest Hpre) in Hm.
      destruct (upto_last_close rest) as [p|] eqn:Ep; [|discriminate].
      injection Hm as <-.
      destruct (upto_last_close_inv _ _ Ep) as (mid & post & -> & -> & Hpost).
      exists pre, mid, post. rewrite E. repeat split; try assumption.
      cbn [app]. rewrite <- app_assoc. reflexivity.
    + rewrite (search_object_no_open _ Hno) in Hm. discriminate.
  - intros Hnone. unfold ClassifierClaims.extracted.
    destruct (search_object (strip t)) as [m|] eqn:Hm; [|reflexivity].
    exfalso.
    destruct (in_dec N.eq_dec 123 (strip t)) as [Hin|Hno].
    + destruct (first_open _ Hin) as (pre & rest & E & Hpre).
      rewrite E, (search_object_skip pre rest Hpre) in Hm.
      destruct (upto_last_close rest) as [p|] eqn:Ep; [|discriminate].
      destruct (upto_last_close_inv _ _ Ep) as (mid & post & -> & _ & _).
      apply (Hnone pre mid post). exact E.
    + rewrite (search_object_no_open _ Hno) in Hm. discriminate.
Qed.

Lemma json_is_cut_from_first_to_last_brace_witness :
  ClassifierClaims.extracted (u "Voici: {a: 1} et {b: 2}. Fin ")
  = 123 :: u "a: 1} et {b: 2" ++ [125].
Proof.
  refine (proj1 (proj1 (json_is_cut_from_first_to_last_brace
                          (u "Voici: {a: 1} et {b: 2}. Fin "))
                   (u "Voici: ") (u "a: 1} et {b: 2") (u ". Fin") _ _ _)).
  - reflexivity.
  - vm_compute. intuition discriminate.
  - vm_compute. intuition discriminate.
Defined.

(** *** The fallback result *)






End ClassifierExtras.

(* ------------------------------------------------------------------------- *)
(** ** The scheduler's own recorder *)

Module TopSchedulerExtras.

Import Resolver TopScheduler.
Open Scope Z_scope.

Definition wanted_client (a : Payload) : str :=
  str_or (if truthy_str (a_client_name a) then a_client_name a
          else a_source_nas (payload a)) [].

Definition wanted_status (a : Payload) : str :=
  str_or (get_status (payload a)) (u "unknown").

Definition wanted_task (a : Payload) : str :=
  str_or (a_task_name (payload a)) (u "Default").

(** The backup as the recording of [a] leaves it. *)
Definition after_event (now : Z) (email : Email) (a : Payload) (backup : Backup)
  : Backup :=
  set_last_event_at
    (if str_eqb (wanted_status a) (u "success") then
       set_current_status
         (set_total_success_count
            (set_last_success_at backup (Some (or_now (received_at email) now)))
            (Some (or0 (total_success_count backup) + 1))) OK
     else if str_eqb (wanted_status a) (u "failure") then
       set_current_status
         (set_total_failure_count
            (set_last_failure_at backup (Some (or_now (received_at email) now)))
            (Some (or0 (total_failure_count backup) + 1))) FAILED
     else backup)
    (Some (or_now (received_at email) now)).

Definition fresh_backup (db : DB) (client : Client) (a : Payload) : Backup :=
  mkBackup (next_backup_id db) (client_id client) (wanted_task a)
    (Some (str_or (a_backup_type (payload a)) (u "other")))
    (a_source_nas (payload a)) None None
    (if str_eqb (wanted_status a) (u "success") then OK else FAILED)
    None None None (Some 0) (Some 0) (Some true) (Some false) None.

Definition matching_backups (db : DB) (client : Client) (a : Payload) : list Backup :=
  filter (fun b =>
    (backup_client_id b =? client_id client)
    && col_eq (Model.source_nas b) (str_or (a_source_nas (payload a)) [])
    && str_eqb (name b) (wanted_task a)) (backups db).

Definition the_event (now : Z) (db : DB) (email : Email) (a : Payload)
    (backup : Backup) : BackupEvent :=
  mkBackupEvent (next_event_id db) (backup_id backup) (email_id email)
    (Some (wanted_status a)) (Some (or_now (received_at email) now)) None
    (a_error_message (payload a)) (payload a).

(** The outcomes of [_process_backup_notification], case by case. *)
Lemma process_cases (now : Z) (db : DB) (email : Email) (a : Payload) :
  truthy_str (a_source_nas (payload a)) = true ->
  _process_backup_notification now db email a =
  match filter (fun c => str_eqb (Model.client_name c) (wanted_client a))
          (clients db) with
  | [] => Raise (OtherError (u "IntegrityError: null value in column short_name"))
  | [client] =>
    match matching_backups db client a with
    | [] =>
      Ok (mkDB (clients db)
            (put_backup (after_event now email a (fresh_backup db client a))
               (backups db ++ [fresh_backup db client a]))
            (events db ++ [the_event now db email a (fresh_backup db client a)])
            (alerts db) (next_client_id db) (next_backup_id db + 1)
            (next_event_id db + 1),
          mkCounts 0 1 1)
    | [backup] =>
      Ok (mkDB (clients db)
            (put_backup (after_event now email a backup) (backups db))
            (events db ++ [the_event now db email a backup])
            (alerts db) (next_client_id db) (next_backup_id db)
            (next_event_id db + 1),
          mkCounts 0 0 1)
    | _ :: _ :: _ => Raise MultipleResultsFound
    end
  | _ :: _ :: _ => Raise MultipleResultsFound
  end.
Proof.
  intros S. unfold _process_backup_notification. cbv zeta. rewrite S. cbn [negb].
  fold (wanted_client a).
  destruct (filter _ (clients db)) as [|client [|c2 r]];
    cbn [scalar_one_or_none bind]; try reflexivity.
  fold (wanted_task a). fold (matching_backups db client a).
  destruct (matching_backups db client a) as [|backup [|b2 r]];
    cbn [scalar_one_or_none bind]; reflexivity.
Qed.

Lemma put_backup_length (b : Backup) (l : list Backup) :
  List.length (put_backup b l) = List.length l.
Proof. unfold put_backup. apply length_map. Qed.

(** X15: the recorder of scheduler.py never makes a client and never looks
    for an event already there.  Without a source it does nothing; when no
    client bears the wanted name (the payload's client name, else its source)
    it raises, the client it builds having no short name; and every call
    that returns has left the clients as they were and added exactly one
    event for the email, whether or not one was there, with events_created
    = 1, clients_created = 0, and backups_created the number of backups
    added (0 or 1). *)
Theorem scheduler_recorder_never_creates_client_nor_checks_event
    (now : Z) (db : DB) (email : Email) (a : Payload) :
  (truthy_str (a_source_nas (payload a)) = false ->
     _process_backup_notification now db email a = Ok (db, mkCounts 0 0 0))
  /\ (truthy_str (a_source_nas (payload a)) = true ->
      filter (fun c => str_eqb (Model.client_name c) (wanted_client a)) (clients db)
        = [] ->
      _process_backup_notification now db email a
      = Raise (OtherError (u "IntegrityError: null value in column short_name")))
  /\ (forall db1 r,
        truthy_str (a_source_nas (payload a)) = true ->
        _process_backup_notification now db email a = Ok (db1, r) ->
        clients db1 = clients db
        /\ clients_created r = 0
        /\ events_created r = 1
        /\ (backups_created r = 0 \/ backups_created r = 1)
        /\ Z.of_nat (List.length (backups db1))
           = Z.of_nat (List.length (backups db)) + backups_created r
        /\ exists e,
             events db1 = events db ++ [e]
             /\ event_email_id e = email_id email
             /\ event_type e = Some (wanted_status a)
             /\ event_date e = Some (or_now (received_at email) now)).
Proof.
  split; [|split].
  - intros S. unfold _process_backup_notification. cbv zeta. rewrite S. reflexivity.
  - intros S F. rewrite (process_cases now db email a S), F. reflexivity.
  - intros db1 r S. rewrite (process_cases now db email a S).
    destruct (filter _ (clients db)) as [|client [|c2 rr]]; try discriminate.
    destruct (matching_backups db client a) as [|backup [|b2 rr]]; try discriminate.
    + intros H; injection H as <- <-.
      cbn [clients backups events clients_created backups_created events_created].
      rewrite put_backup_length, length_app. cbn [List.length].
      repeat split; try tauto; try lia.
      eexists. repeat split.
    + intros H; injection H as <- <-.
      cbn [clients backups events clients_created backups_created events_created].
      rewrite put_backup_length.
      repeat split; try tauto; try lia.
      eexists. repeat split.
Qed.

Definition martin : Client :=
  mkClient 4 (u "Cabinet Martin") (u "MARTIN") None (Some [u "DS218"]) (Some true).

Definition martin_signal : Payload :=
  mkPayload
    (mkAnalysis (Some true) (Some (u "hyper_backup")) (Some (Some (u "warning")))
       (Some (u "DS218")) None (Some (u "Nightly")) None None)
    (Some (u "Cabinet Martin")).

Lemma scheduler_recorder_never_creates_client_nor_checks_event_witness :
  _process_backup_notification 5 (mkDB [martin] [] [] [] 5 1 1)
    (mkEmail (Some 3) None None)
    (mkPayload (payload martin_signal) None)
  = Raise (OtherError (u "IntegrityError: null value in column short_name"))
  /\ exists e,
       events (mkDB [martin]
                 (put_backup
                    (after_event 5 (mkEmail (Some 3) None None) martin_signal
                       (fresh_backup (mkDB [martin] [] [] [] 5 1 1) martin
                          martin_signal))
                    ([] ++ [fresh_backup (mkDB [martin] [] [] [] 5 1 1) martin
                              martin_signal]))
                 ([] ++ [the_event 5 (mkDB [martin] [] [] [] 5 1 1)
                           (mkEmail (Some 3) None None) martin_signal
                           (fresh_backup (mkDB [martin] [] [] [] 5 1 1) martin
                              martin_signal)])
                 [] 5 (1 + 1) (1 + 1))
       = [] ++ [e]
       /\ event_email_id e = Some 3
       /\ event_type e = Some (wanted_status martin_signal)
       /\ event_date e = Some (or_now None 5).
Proof.
  pose proof (scheduler_recorder_never_creates_client_nor_checks_event
                5 (mkDB [martin] [] [] [] 5 1 1) (mkEmail (Some 3) None None)
                (mkPayload (payload martin_signal) None)) as (_ & H2 & _).
  pose proof (scheduler_recorder_never_creates_client_nor_checks_event
                5 (mkDB [martin] [] [] [] 5 1 1) (mkEmail (Some 3) None None)
                martin_signal) as (_ & _ & H3).
  split.
  - apply H2; reflexivity.
  - specialize (H3 _ (mkCounts 0 1 1) eq_refl eq_refl).
    destruct H3 as (_ & _ & _ & _ & _ & H3). exact H3.
Defined.

(** X16: a backup this recorder makes starts as failed unless the very
    signal is a success: made from a warning or from a payload without
    status, the backup is failed at once, with both counters at 0.  (The
    keys of the backups being below the sequence, the new row is the last of
    the table.) *)
Theorem scheduler_backup_starts_failed_unless_success
    (now : Z) (db db1 : DB) (email : Email) (a : Payload) (client : Client)
    (r : Counts) :
  (forall b, In b (backups db) -> backup_id b < next_backup_id db) ->
  truthy_str (a_source_nas (payload a)) = true ->
  filter (fun c => str_eqb (Model.client_name c) (wanted_client a)) (clients db)
    = [client] ->
  matching_backups db client a = [] ->
  _process_backup_notification now db email a = Ok (db1, r) ->
  exists b,
    backups db1 = backups db ++ [b]
    /\ backups_created r = 1
    /\ name b = wanted_task a
    /\ backup_client_id b = client_id client
    /\ current_status b
       = (if str_eqb (wanted_status a) (u "success") then OK else FAILED)
    /\ (wanted_status a <> u "success" -> wanted_status a <> u "failure" ->
          total_success_count b = Some 0 /\ total_failure_count b = Some 0
          /\ last_failure_at b = None).
Proof.
  intros K S C M. rewrite (process_cases now db email a S), C, M.
  intros H; injection H as <- <-.
  exists (after_event now email a (fresh_backup db client a)).
  cbn [backups backups_created].
  assert (Id : backup_id (after_event now email a (fresh_backup db client a))
               = next_backup_id db).
  { unfold after_event.
    destruct (str_eqb (wanted_status a) (u "success")); [reflexivity|].
    destruct (str_eqb (wanted_status a) (u "failure")); reflexivity. }
  split; [|split; [reflexivity|]].
  - unfold put_backup. rewrite map_app. cbn [map]. rewrite Id.
    cbn [fresh_backup backup_id]. rewrite Z.eqb_refl. f_equal.
    rewrite <- (map_id (backups db)) at 2. apply map_ext_in.
    intros x Hx. destruct (Z.eqb_spec (backup_id x) (next_backup_id db)) as [E|];
      [|reflexivity].
    specialize (K x Hx). lia.
  - unfold after_event.
    destruct (str_eqb (wanted_status a) (u "success")) eqn:E1.
    + apply str_eqb_spec in E1.
      split; [reflexivity|]. split; [reflexivity|]. split; [reflexivity|].
      intros N. contradiction.
    + destruct (str_eqb (wanted_status a) (u "failure")) eqn:E2.
      * apply str_eqb_spec in E2.
        split; [reflexivity|]. split; [reflexivity|].
        split; [cbn [fresh_backup set_last_event_at set_current_status current_status];
                reflexivity|].
        intros _ N. contradiction.
      * cbn [fresh_backup set_last_event_at name backup_client_id current_status
             total_success_count total_failure_count last_failure_at].
        rewrite E1. repeat split.
Qed.

Lemma scheduler_backup_starts_failed_unless_success_witness :
  exists b,
    backups (mkDB [martin]
               (put_backup
                  (after_event 5 (mkEmail (Some 3) None None) martin_signal
                     (fresh_backup (mkDB [martin] [] [] [] 5 1 1) martin
                        martin_signal))
                  ([] ++ [fresh_backup (mkDB [martin] [] [] [] 5 1 1) martin
                            martin_signal]))
               ([] ++ [the_event 5 (mkDB [martin] [] [] [] 5 1 1)
                         (mkEmail (Some 3) None None) martin_signal
                         (fresh_backup (mkDB [martin] [] [] [] 5 1 1) martin
                            martin_signal)])
               [] 5 (1 + 1) (1 + 1))
    = [] ++ [b]
    /\ backups_created (mkCounts 0 1 1) = 1
    /\ name b = wanted_task martin_signal
    /\ backup_client_id b = client_id martin
    /\ current_status b
       = (if str_eqb (wanted_status martin_signal) (u "success") then OK else FAILED)
    /\ (wanted_status martin_signal <> u "success" ->
        wanted_status martin_signal <> u "failure" ->
        total_success_count b = Some 0 /\ total_failure_count b = Some 0
        /\ last_failure_at b = None).
Proof.
  apply (scheduler_backup_starts_failed_unless_success 5
           (mkDB [martin] [] [] [] 5 1 1) _ (mkEmail (Some 3) None None)
           martin_signal martin (mkCounts 0 1 1)).
  - intros b [].
  - reflexivity.
  - reflexivity.
  - reflexivity.
  - reflexivity.
Defined.

End TopSchedulerExtras.

(* ------------------------------------------------------------------------- *)
(** ** The breakdowns of the report *)

Module ReportExtras.

Import Report.
Open Scope Z_scope.

Definition tally_sum (d : tally) : Z :=
  fold_right (fun kv acc => snd kv + acc) 0 d.

Definition status_key (r : AnalysisResult) : str := str_or (r_status r) (u "unknown").
Definition type_key (r : AnalysisResult) : str := str_or (r_backup_type r) (u "unknown").

(** The notifications among [results] whose key is [k]. *)
Definition count_key (key : AnalysisResult -> str) (k : str)
    (results : list AnalysisResult) : Z :=
  Z.of_nat (List.length
    (filter (fun r => r_is_backup_notification r && str_eqb (key r) k) results)).

Lemma tally_get_set (d : tally) (k k' : str) (n : Z) :
  tally_get (tally_set d k n) k' = if str_eqb k k' then n else tally_get d k'.
Proof.
  induction d as [|[k0 n0] r IH]; [reflexivity|].
  cbn [tally_set]. destruct (str_eqb k0 k) eqn:E.
  - apply str_eqb_spec in E. subst k0. cbn [tally_get].
    destruct (str_eqb k k'); reflexivity.
  - cbn [tally_get]. rewrite IH. destruct (str_eqb k0 k') eqn:E'; [|reflexivity].
    apply str_eqb_spec in E'. subst k0. destruct (str_eqb k k') eqn:E2; [|reflexivity].
    apply str_eqb_spec in E2. subst k'. rewrite str_eqb_refl in E. discriminate.
Qed.

Lemma tally_sum_set (d : tally) (k : str) (n : Z) :
  tally_sum (tally_set d k n) = tally_sum d - tally_get d k + n.
Proof.
  induction d as [|[k0 n0] r IH]; [cbn; lia|].
  cbn [tally_set tally_get]. destruct (str_eqb k0 k).
  - cbn [tally_sum fold_right snd]. lia.
  - cbn [tally_sum fold_right snd]. fold (tally_sum (tally_set r k n)).
    fold (tally_sum r). rewrite IH. lia.
Qed.

Lemma tally_set_key_in (d : tally) (k : str) (n : Z) (x : str) :
  In x (map fst (tally_set d k n)) -> In x (map fst d) \/ x = k.
Proof.
  induction d as [|[k0 n0] r IH]; cbn [tally_set map fst In].
  - intros [<-|[]]. right. reflexivity.
  - destruct (str_eqb k0 k); cbn [map fst In]; intros [<-|H]; auto.
    destruct (IH H); auto.
Qed.

Lemma tally_keys_set (d : tally) (k : str) (n : Z) :
  NoDup (map fst d) -> NoDup (map fst (tally_set d k n)).
Proof.
  induction d as [|[k0 n0] r IH]; intros N.
  - cbn. repeat constructor. intros [].
  - cbn [tally_set]. cbn [map fst] in N. inversion N as [|? ? Hn N']; subst.
    destruct (str_eqb k0 k) eqn:E; cbn [map fst].
    + constructor; assumption.
    + constructor; [|apply IH; assumption].
      intros Hin. destruct (tally_set_key_in _ _ _ _ Hin) as [H|H]; [contradiction|].
      subst k0. rewrite str_eqb_refl in E. discriminate.
Qed.

Lemma breakdowns_invariant (results : list AnalysisResult) (s t : tally) :
  NoDup (map fst s) -> NoDup (map fst t) ->
  (forall k, tally_get (fst (breakdowns results s t)) k
             = tally_get s k + count_key status_key k results)
  /\ (forall k, tally_get (snd (breakdowns results s t)) k
                = tally_get t k + count_key type_key k results)
  /\ tally_sum (fst (breakdowns results s t)) = tally_sum s + backup_count results
  /\ tally_sum (snd (breakdowns results s t)) = tally_sum t + backup_count results
  /\ NoDup (map fst (fst (breakdowns results s t)))
  /\ NoDup (map fst (snd (breakdowns results s t))).
Proof.
  revert s t. induction results as [|r rest IH]; intros s t Ns Nt.
  - unfold count_key, backup_count. cbn [breakdowns fst snd filter List.length].
    change (Z.of_nat 0) with 0.
    split; [|split; [|split; [|split; [|split]]]]; intros; try lia; assumption.
  - cbn [breakdowns]. unfold count_key, backup_count. cbn [filter].
    destruct (r_is_backup_notification r) eqn:B; cbn [andb].
    + cbv zeta. fold (status_key r). fold (type_key r).
      destruct (IH (tally_set s (status_key r) (tally_get s (status_key r) + 1))
                  (tally_set t (type_key r) (tally_get t (type_key r) + 1))
                  (tally_keys_set _ _ _ Ns) (tally_keys_set _ _ _ Nt))
        as (G1 & G2 & S1 & S2 & N1 & N2).
      unfold count_key, backup_count in *.
      split; [|split; [|split; [|split; [|split]]]]; try assumption.
      * intros k. rewrite G1, tally_get_set.
        destruct (str_eqb (status_key r) k) eqn:E.
        -- apply str_eqb_spec in E. subst k. cbn [List.length]. lia.
        -- lia.
      * intros k. rewrite G2, tally_get_set.
        destruct (str_eqb (type_key r) k) eqn:E.
        -- apply str_eqb_spec in E. subst k. cbn [List.length]. lia.
        -- lia.
      * rewrite S1, tally_sum_set. cbn [List.length]. lia.
      * rewrite S2, tally_sum_set. cbn [List.length]. lia.
    + apply IH; assumption.
Qed.

(** X17: the breakdowns of the report are exact.  For each key, [by_status]
    holds the number of backup notifications with that status and [by_type]
    the number with that type, a null or empty value counting under
    "unknown"; each breakdown sums to the number of backup notifications
    found; no key comes twice; and the results that are no backup
    notifications count nowhere. *)
Theorem report_breakdowns_are_exact (results : list AnalysisResult) :
  (forall k, tally_get (by_status results) k = count_key status_key k results)
  /\ (forall k, tally_get (by_type results) k = count_key type_key k results)
  /\ tally_sum (by_status results) = backup_count results
  /\ tally_sum (by_type results) = backup_count results
  /\ NoDup (map fst (by_status results))
  /\ NoDup (map fst (by_type results)).
Proof.
  unfold by_status, by_type.
  destruct (breakdowns_invariant results [] [] (NoDup_nil _) (NoDup_nil _))
    as (G1 & G2 & S1 & S2 & N1 & N2).
  split; [|split; [|split; [|split; [|split]]]]; assumption.
Qed.

End ReportExtras.

(* ------------------------------------------------------------------------- *)
(** ** The recorder of the daily job *)

Module DailyJobExtras.

Import Resolver DailyJob.
Open Scope Z_scope.

Lemma put_backup_ids (b : Backup) (l : list Backup) :
  map backup_id (put_backup b l) = map backup_id l.
Proof.
  unfold put_backup. rewrite map_map. apply map_ext. intros x.
  destruct (backup_id x =? backup_id b) eqn:E; [|reflexivity].
  apply Z.eqb_eq in E. symmetry. exact E.
Qed.

Lemma put_backup_others (b x : Backup) (l : list Backup) :
  In x (put_backup b l) -> backup_id x <> backup_id b -> In x l.
Proof.
  unfold put_backup. intros Hin Hne. apply in_map_iff in Hin.
  destruct Hin as (y & Hy & Hin).
  destruct (backup_id y =? backup_id b); subst x; [contradiction Hne; reflexivity|].
  exact Hin.
Qed.

(** The backup found is a row of the store that has the source of the
    payload, and the payload has a source. *)
Lemma find_backup_found (db : DB) (analysis : Analysis) (b : Backup) :
  find_backup db analysis = Ok (Some b) ->
  In b (backups db)
  /\ truthy_str (a_source_nas analysis) = true
  /\ col_eq (Model.source_nas b) (str_or (a_source_nas analysis) []) = true.
Proof.
  unfold find_backup.
  set (byname := filter _ (backups db)). set (bysrc := filter _ (backups db)).
  assert (Hn : forall x, In x byname ->
            In x (backups db)
            /\ col_eq (Model.source_nas x) (str_or (a_source_nas analysis) []) = true).
  { intros x Hx. apply filter_In in Hx. destruct Hx as (Hx & Hc).
    apply andb_true_iff in Hc. tauto. }
  assert (Hs : forall x, In x bysrc ->
            In x (backups db)
            /\ col_eq (Model.source_nas x) (str_or (a_source_nas analysis) []) = true).
  { intros x Hx. apply filter_In in Hx. exact Hx. }
  clearbody byname bysrc.
  destruct (truthy_str (a_source_nas analysis)) eqn:T; cbn [andb].
  - assert (Hsrc : match bysrc with [x] => Ok (Some x) | _ => Ok None end = Ok (Some b) ->
              In b (backups db) /\ true = true
              /\ col_eq (Model.source_nas b) (str_or (a_source_nas analysis) []) = true).
    { destruct bysrc as [|x [|y r]]; try discriminate.
      intros H. injection H as ->.
      destruct (Hs b (or_introl eq_refl)). tauto. }
    destruct (truthy_str (a_task_name analysis)).
    + destruct byname as [|x [|y r]];
        cbn [scalar_one_or_none bind]; try discriminate; [exact Hsrc|].
      intros H. injection H as ->.
      destruct (Hn b (or_introl eq_refl)). tauto.
    + cbn [bind]. exact Hsrc.
  - destruct (truthy_str (a_task_name analysis)); cbn [bind];
      [destruct byname as [|x [|y r]]; cbn [scalar_one_or_none bind]|];
      discriminate.
Qed.

(** The two ways [_create_backup_event] returns. *)
Lemma daily_recorder_cases (db db' : DB) (email_record : Email) (analysis : Analysis)
    (logs : list log_record) :
  _create_backup_event db email_record analysis = Ok (db', logs) ->
  (find_backup db analysis = Ok None /\ db' = db
   /\ exists w, logs = [mkLog LogWarning w])
  \/ (exists b b' e w,
        find_backup db analysis = Ok (Some b)
        /\ backup_id b' = backup_id b
        /\ db' = mkDB (clients db) (put_backup b' (backups db)) (events db ++ [e])
                   (alerts db) (next_client_id db) (next_backup_id db)
                   (next_event_id db + 1)
        /\ event_id e = next_event_id db
        /\ event_backup_id e = backup_id b
        /\ event_email_id e = email_id email_record
        /\ logs = [mkLog LogInfo w]).
Proof.
  unfold _create_backup_event.
  destruct (find_backup db analysis) as [[b|]|err]; cbn [bind];
    [| |intros H; discriminate H].
  - unfold insert_event. cbv zeta.
    set (et := match a_status analysis with Some v => v | None => Some (u "unknown") end).
    set (e := mkBackupEvent (next_event_id db) (backup_id b) (email_id email_record) et
                (received_at email_record) None (a_error_message analysis) analysis).
    intros H. right.
    destruct (col_eq et (u "success")).
    + unfold set_last_success_at in H; cbn [total_success_count] in H.
      destruct (total_success_count b) as [n|]; cbn [incr bind] in H; [|discriminate].
      injection H as <- <-. do 4 eexists.
      split; [reflexivity|]. split; [|split; [reflexivity|]].
      * reflexivity.
      * repeat split; reflexivity.
    + destruct (col_eq et (u "failure")).
      * unfold set_last_failure_at in H; cbn [total_failure_count] in H.
        destruct (total_failure_count b) as [n|]; cbn [incr bind] in H; [|discriminate].
        injection H as <- <-. do 4 eexists.
        split; [reflexivity|]. split; [|split; [reflexivity|]].
        -- reflexivity.
        -- repeat split; reflexivity.
      * cbn [bind] in H. injection H as <- <-. do 4 eexists.
        split; [reflexivity|]. split; [|split; [reflexivity|]].
        -- reflexivity.
        -- repeat split; reflexivity.
  - intros H. injection H as <- <-. left.
    split; [reflexivity|]. split; [reflexivity|]. eexists. reflexivity.
Qed.

(** X18: the recorder of the daily job never makes a client or a backup.
    Whenever it returns, the clients, the alerts and the keys of the backups
    are as before, and either nothing at all has changed and one warning is
    logged, or exactly one event has been added, for the email, on a backup
    that was already in the store and has the source of the payload, the
    other backups being untouched. *)
Theorem daily_recorder_never_creates_backup (db db' : DB) (email_record : Email)
    (analysis : Analysis) (logs : list log_record) :
  _create_backup_event db email_record analysis = Ok (db', logs) ->
  clients db' = clients db
  /\ alerts db' = alerts db
  /\ map backup_id (backups db') = map backup_id (backups db)
  /\ ((db' = db /\ exists w, logs = [mkLog LogWarning w])
      \/ (exists b e w,
            In b (backups db)
            /\ truthy_str (a_source_nas analysis) = true
            /\ col_eq (Model.source_nas b) (str_or (a_source_nas analysis) []) = true
            /\ events db' = events db ++ [e]
            /\ event_id e = next_event_id db
            /\ event_backup_id e = backup_id b
            /\ event_email_id e = email_id email_record
            /\ (forall x, In x (backups db') -> backup_id x <> backup_id b ->
                          In x (backups db))
            /\ logs = [mkLog LogInfo w])).
Proof.
  intros H. apply daily_recorder_cases in H.
  destruct H as [(_ & -> & w & ->)|(b & b' & e & w & F & Hid & -> & E1 & E2 & E3 & ->)].
  - split; [reflexivity|]. split; [reflexivity|]. split; [reflexivity|].
    left. split; [reflexivity|]. exists w. reflexivity.
  - cbn [clients alerts backups events].
    split; [reflexivity|]. split; [reflexivity|]. split; [apply put_backup_ids|].
    right. apply find_backup_found in F. destruct F as (Hin & T & C).
    exists b, e, w. repeat (split; [assumption || reflexivity|]).
    split; [|reflexivity].
    intros x Hx Hne. apply put_backup_others with (b := b'); [exact Hx|].
    rewrite Hid. exact Hne.
Qed.

Definition ds218_backup : Backup :=
  mkBackup 7 4 (u "Nightly") (Some (u "hyper_backup")) (Some (u "DS218")) None None
    UNKNOWN None None None (Some 0) (Some 0) (Some true) (Some false) None.

Definition ds218_signal : Analysis :=
  mkAnalysis (Some true) (Some (u "hyper_backup")) (Some (Some (u "success")))
    (Some (u "DS218")) None (Some (u "Weekly")) None None.

Lemma daily_recorder_never_creates_backup_witness :
  map backup_id
    (backups (mkDB [] [set_last_event_at
                         (set_current_status
                            (set_total_success_count
                               (set_last_success_at ds218_backup (Some 50)) (Some 1)) OK)
                         (Some 50)]
                [mkBackupEvent 1 7 (Some 3) (Some (u "success")) (Some 50) None None
                   ds218_signal] [] 1 8 2))
  = map backup_id (backups (mkDB [] [ds218_backup] [] [] 1 8 1)).
Proof.
  eapply (daily_recorder_never_creates_backup
            (mkDB [] [ds218_backup] [] [] 1 8 1) _ (mkEmail (Some 3) None (Some 50))
            ds218_signal).
  vm_compute. reflexivity.
Defined.

End DailyJobExtras.

(* ------------------------------------------------------------------------- *)
(** ** The daily run over the fetched emails *)

Module DailyRunExtras.

Import Resolver Classifier DailyJob DailyRun DailyJobExtras.
Open Scope Z_scope.

(** The message ids of the stored emails. *)
Definition message_ids (st : MailStore) : list str :=
  map (fun r => message_id (row_message r)) (store_emails st).

Definition stored_message (st : MailStore) (m : str) : Prop := In m (message_ids st).

Lemma known_stored (st : MailStore) (e : EmailMessage) :
  stored_message st (message_id e) <-> known st e <> [].
Proof.
  unfold stored_message, message_ids, known. split.
  - intros Hin E. apply in_map_iff in Hin. destruct Hin as (r & Hr & Hin).
    assert (Hf : In r (filter (fun r0 =>
                   str_eqb (message_id (row_message r0)) (message_id e))
                   (store_emails st))).
    { apply filter_In. split; [exact Hin|]. apply str_eqb_spec. exact Hr. }
    rewrite E in Hf. exact Hf.
  - intros Hne.
    destruct (filter _ (store_emails st)) as [|r l] eqn:E; [contradiction Hne; reflexivity|].
    assert (Hf : In r (filter (fun r0 =>
                   str_eqb (message_id (row_message r0)) (message_id e))
                   (store_emails st))) by (rewrite E; left; reflexivity).
    apply filter_In in Hf. destruct Hf as (Hin & Hr). apply str_eqb_spec in Hr.
    apply in_map_iff. exists r. split; assumption.
Qed.

Section Run.

Variable analyze : EmailMessage -> Analysis.

(** The two ways the body of the loop returns. *)
Lemma process_email_cases (now : Z) (st st' : MailStore) (e : EmailMessage) :
  process_email analyze now st e = Ok st' ->
  (stored_message st (message_id e) /\ st' = st)
  \/ (~ stored_message st (message_id e)
      /\ store_emails st'
         = store_emails st ++ [mkEmailRow (next_email_id st) e (analyze e) now]
      /\ next_email_id st' = next_email_id st + 1
      /\ clients (store_db st') = clients (store_db st)
      /\ alerts (store_db st') = alerts (store_db st)
      /\ map backup_id (backups (store_db st')) = map backup_id (backups (store_db st))).
Proof.
  unfold process_email. pose proof (known_stored st e) as K.
  destruct (known st e) as [|r [|r2 l]]; cbn [scalar_one_or_none bind].
  - intros H. right. split; [intros S; apply K in S; apply S; reflexivity|].
    cbv zeta in H. cbn [store_db store_emails next_email_id] in H.
    destruct (truthy_bool (a_is_backup_notification (analyze e))
              && truthy_str (a_source_nas (analyze e))).
    + destruct (_create_backup_event _ _ _) as [[db' logs]|err] eqn:C;
        cbn [bind] in H; [|discriminate].
      injection H as <-. cbn [store_db store_emails next_email_id].
      apply daily_recorder_cases in C.
      destruct C as [(_ & -> & _)|(b & b' & ev & w & _ & _ & -> & _)].
      * repeat split; reflexivity.
      * cbn [clients alerts backups]. rewrite put_backup_ids. repeat split; reflexivity.
    + injection H as <-. cbn [store_db store_emails next_email_id].
      repeat split; reflexivity.
  - intros H. injection H as <-. left. split; [|reflexivity].
    apply K. discriminate.
  - discriminate.
Qed.



End Run.



Definition ds218_mail : EmailMessage :=
  mkEmailMessage (u "<7@ds218>") (u "DS218 Nightly: success") (u "nas@example.org")
    (u "Backup task Nightly completed") 50.

Definition other_mail : EmailMessage :=
  mkEmailMessage (u "<8@news>") (u "Newsletter") (u "news@example.org") (u "Hello") 60.

Definition sample_analyze (m : EmailMessage) : Analysis :=
  if str_eqb (message_id m) (u "<7@ds218>") then ds218_signal
  else mkAnalysis (Some false) None None None None None None None.

Definition sample_store : MailStore :=
  mkMailStore (mkDB [] [ds218_backup] [] [] 1 8 1) [] 1.


(** X20: the daily run keeps the message ids of the stored emails distinct
    and never makes a client, a backup or an alert.  Whether the run goes
    through or fails, the rows already stored stay as they are at the head of
    the table, distinct message ids stay distinct (also when the batch holds
    one email twice), each new row belongs to the batch, and the clients, the
    alerts and the keys of the backups are those of before. *)
Theorem daily_run_keeps_message_ids_distinct (analyze : EmailMessage -> Analysis)
    (now : Z) (st : MailStore) (es : list EmailMessage) :
  NoDup (message_ids st) ->
  let st1 := _daily_email_analysis analyze now st es in
  NoDup (message_ids st1)
  /\ (exists added, store_emails st1 = store_emails st ++ added
        /\ forall r, In r added -> In (row_message r) es)
  /\ clients (store_db st1) = clients (store_db st)
  /\ alerts (store_db st1) = alerts (store_db st)
  /\ map backup_id (backups (store_db st1)) = map backup_id (backups (store_db st)).
Proof.
  intros N. cbv zeta. unfold _daily_email_analysis.
  destruct (process_emails analyze now st es) as [st1|err] eqn:P.
  - revert st st1 N P. induction es as [|e es IH]; intros st st1 N; cbn [process_emails].
    + intros H. injection H as <-. split; [exact N|].
      split; [exists []; rewrite app_nil_r; split; [reflexivity|intros r []]|].
      repeat split; reflexivity.
    + destruct (process_email analyze now st e) as [st2|err] eqn:Q; cbn [bind];
        [|discriminate].
      intros H. apply process_email_cases in Q.
      destruct Q as [(_ & ->)|(Hnew & E & _ & C & A & B)].
      * destruct (IH st st1 N H) as (I1 & (added & I2 & I3) & I4).
        split; [exact I1|]. split; [|exact I4].
        exists added. split; [exact I2|]. intros r Hr. right. apply I3, Hr.
      * assert (N2 : NoDup (message_ids st2)).
        { unfold message_ids. rewrite E, map_app. cbn [map row_message].
          apply NoDup_app_remove_l with (l := []). cbn [app].
          apply NoDup_app; [exact N|repeat constructor; intros []|].
          intros m Hm [<-|[]]. apply Hnew. exact Hm. }
        destruct (IH st2 st1 N2 H) as (I1 & (added & I2 & I3) & I4 & I5 & I6).
        split; [exact I1|]. split.
        -- exists (mkEmailRow (next_email_id st) e (analyze e) now :: added).
           split; [rewrite I2, E, <- app_assoc; reflexivity|].
           intros r [<-|Hr]; [left; reflexivity|right; apply I3, Hr].
        -- rewrite I4, I5, I6, C, A, B. repeat split; reflexivity.
  - split; [exact N|].
    split; [exists []; rewrite app_nil_r; split; [reflexivity|intros r []]|].
    repeat split; reflexivity.
Qed.

Lemma daily_run_keeps_message_ids_distinct_witness :
  NoDup (message_ids (_daily_email_analysis sample_analyze 100 sample_store
                        [ds218_mail; other_mail; ds218_mail])).
Proof.
  apply (daily_run_keeps_message_ids_distinct sample_analyze 100 sample_store
           [ds218_mail; other_mail; ds218_mail]).
  vm_compute. constructor.
Defined.

End DailyRunExtras.
